(** * snipe-it-tools: [tools/list-settings.py]

    A shallow embedding of the SnipeIT settings lister and the proofs of
    the properties its specification states.

    The script talks to three things outside itself: the HTTP session
    ([requests]), the console ([rich]) and the file system.  They are the
    [world] of the model: every call to one of them is recorded as an
    [event], and what the network and the disk answer is read from an
    oracle.  Everything between these calls is ordinary Python over the
    values [response.json()] returns, and is modelled by total functions
    into [result], an exception being the [Raise] case.

    Two things are taken from the libraries as they are, without being
    computed: what rich does with a text whose markup tags are not plain
    style names, and which characters outside ASCII Python calls
    printable.  They are the [library] the definitions below read.

    The process is taken to run to its end on a terminal that can show
    every character: no signal interrupts it, and writing a character to
    the terminal does not fail. *)

From Stdlib Require Import String Ascii List ZArith Bool Arith Lia DecimalString.
Import ListNotations.
Local Open Scope string_scope.
Set Warnings "-register-all".

(* ================================================================== *)
(** * Python values *)
(* ================================================================== *)

(** What [json.loads] builds: [None], [bool], [int], [float], [str],
    [list] and [dict] with [str] keys.  A [str] is the Rocq string of its
    UTF-8 bytes: a character is one byte, or a start byte followed by its
    continuation bytes.  A [dict] is the list of its items in insertion
    order.  The script observes a [float] only through its truth value and
    its [str()] text, so a float is these two observations. *)
Inductive json : Type :=
| JNull
| JBool (b : bool)
| JInt (n : Z)
| JFloat (nonzero : bool) (text : string)
| JStr (s : string)
| JArr (items : list json)
| JObj (fields : list (string * json)).

(** Python exceptions that can occur in the script, by class.
    [RequestException] stands for [requests.exceptions.RequestException]
    and its subclasses, the only ones [except RequestException] catches.
    [SystemExit] is not an [Exception] subclass: [except Exception] lets
    it through. *)
Inductive exn : Type :=
| AttributeError (msg : string)
| TypeError (msg : string)
| ValueError (msg : string)
| RecursionError (msg : string)
| NotRenderableError (msg : string)
| MarkupError (msg : string)
| RequestException (msg : string)
| OSError (msg : string)
| SystemExit (code : Z).

Inductive result (A : Type) : Type :=
| Ok (a : A)
| Raise (e : exn).
Arguments Ok {A} a.
Arguments Raise {A} e.

Definition rbind {A B} (r : result A) (k : A -> result B) : result B :=
  match r with
  | Ok a => k a
  | Raise e => Raise e
  end.

Declare Scope py_scope.
Delimit Scope py_scope with py.
Notation "x <~ e ;; k" := (rbind e (fun x => k))
  (at level 61, e at next level, right associativity) : py_scope.
Local Open Scope py_scope.

Definition is_Ok {A} (r : result A) : bool :=
  match r with Ok _ => true | Raise _ => false end.

(** ** Text helpers *)

Definition nl : string := String "010" "".
Definition dquote : string := String "034" "".

(** [str(n)] for an [int]. *)
Definition str_of_Z (n : Z) : string := NilZero.string_of_int (Z.to_int n).
Definition str_of_nat (n : nat) : string := str_of_Z (Z.of_nat n).

Definition type_name (v : json) : string :=
  match v with
  | JNull => "NoneType"
  | JBool _ => "bool"
  | JInt _ => "int"
  | JFloat _ _ => "float"
  | JStr _ => "str"
  | JArr _ => "list"
  | JObj _ => "dict"
  end.

Definition hex_digit (n : N) : string :=
  String (nth (N.to_nat n) (list_ascii_of_string "0123456789abcdef") "0"%char) "".

(** [n] in hexadecimal, on [width] digits. *)
Fixpoint hex (width : nat) (n : N) : string :=
  match width with
  | O => ""
  | S width' => hex width' (n / 16)%N ++ hex_digit (n mod 16)%N
  end.

Definition contains_char (c : ascii) (s : string) : bool :=
  existsb (Ascii.eqb c) (list_ascii_of_string s).

(** ** Characters

    A byte [10xxxxxx] continues the character its start byte began. *)
Definition is_continuation (c : ascii) : bool :=
  let n := nat_of_ascii c in (128 <=? n)%nat && (n <? 192)%nat.

(** [len(s)]: the number of characters. *)
Fixpoint str_len (s : string) : nat :=
  match s with
  | "" => O
  | String c s' => if is_continuation c then str_len s' else S (str_len s')
  end.

(** [s[:n]]: the first [n] characters. *)
Fixpoint str_take (n : nat) (s : string) : string :=
  match s with
  | "" => ""
  | String c s' =>
      if is_continuation c then String c (str_take n s')
      else match n with
           | O => ""
           | S n' => String c (str_take n' s')
           end
  end.

(** The continuation bytes [s] begins with. *)
Fixpoint continuation (s : string) : string :=
  match s with
  | "" => ""
  | String c s' => if is_continuation c then String c (continuation s') else ""
  end.

(** The characters of [s], in order. *)
Fixpoint str_chars (s : string) : list string :=
  match s with
  | "" => []
  | String c s' =>
      if is_continuation c then str_chars s'
      else String c (continuation s') :: str_chars s'
  end.

(** [ord(ch)] of one character. *)
Definition code_point (ch : string) : N :=
  match map N_of_ascii (list_ascii_of_string ch) with
  | [b0] => b0
  | [b0; b1] => (b0 - 192) * 64 + (b1 - 128)
  | [b0; b1; b2] => (b0 - 224) * 4096 + (b1 - 128) * 64 + (b2 - 128)
  | [b0; b1; b2; b3] =>
      (b0 - 240) * 262144 + (b1 - 128) * 4096 + (b2 - 128) * 64 + (b3 - 128)
  | _ => 0
  end%N.

(** ** What is taken from the libraries

    [markup_error text] is the exception rich raises when it renders
    [text] as console markup, if it raises one; the model asks it only
    about texts it does not judge itself (see [accepted] below).
    [isprintable ch] is [ch.isprintable()] for one character outside
    ASCII, a fact of the Unicode database. *)
Record library : Type := {
  markup_error : string -> option exn;
  isprintable : string -> bool
}.

(** A library to run the definitions on sample inputs. *)
Definition sample_library : library :=
  {| markup_error := fun _ => None; isprintable := fun _ => true |}.

Section Library.

Variable lib : library.

(** [repr] of one character of a [str] quoted with [q]. *)
Definition repr_char (q : ascii) (ch : string) : string :=
  match ch with
  | String c "" =>
      let n := nat_of_ascii c in
      if Ascii.eqb c "\"%char then "\\"
      else if Ascii.eqb c q then String "\" (String q "")
      else if (n =? 9)%nat then "\t"
      else if (n =? 10)%nat then "\n"
      else if (n =? 13)%nat then "\r"
      else if (n <? 32)%nat || (n =? 127)%nat then "\x" ++ hex 2 (N.of_nat n)
      else ch
  | _ =>
      if isprintable lib ch then ch
      else
        let n := code_point ch in
        if (n <? 256)%N then "\x" ++ hex 2 n
        else if (n <? 65536)%N then "\u" ++ hex 4 n
        else "\U" ++ hex 8 n
  end.

(** [repr(s)]: single quotes, unless [s] has a single quote and no
    double quote. *)
Definition repr_str (s : string) : string :=
  let q := if contains_char "'"%char s && negb (contains_char "034"%char s)
           then "034"%char else "'"%char in
  String q (String.concat "" (map (repr_char q) (str_chars s)))
    ++ String q "".

Fixpoint py_repr (v : json) : string :=
  match v with
  | JNull => "None"
  | JBool true => "True"
  | JBool false => "False"
  | JInt n => str_of_Z n
  | JFloat _ text => text
  | JStr s => repr_str s
  | JArr items => "[" ++ String.concat ", " (map py_repr items) ++ "]"
  | JObj fields =>
      "{" ++ String.concat ", "
               (map (fun kv => repr_str (fst kv) ++ ": " ++ py_repr (snd kv)) fields)
          ++ "}"
  end.

(** [str(v)], also what an f-string puts for [{v}]. *)
Definition py_str (v : json) : string :=
  match v with
  | JStr s => s
  | _ => py_repr v
  end.

(** ** Operations of the interpreter *)

(** [bool(v)]. *)
Definition truthy (v : json) : bool :=
  match v with
  | JNull => false
  | JBool b => b
  | JInt n => negb (n =? 0)%Z
  | JFloat nonzero _ => nonzero
  | JStr s => negb (s =? "")
  | JArr items => match items with [] => false | _ => true end
  | JObj fields => match fields with [] => false | _ => true end
  end.

Fixpoint lookup (k : string) (fields : list (string * json)) : option json :=
  match fields with
  | [] => None
  | (k', v) :: rest => if k' =? k then Some v else lookup k rest
  end.

Definition dict_get (fields : list (string * json)) (k : string) (default : json)
    : json :=
  match lookup k fields with
  | Some v => v
  | None => default
  end.

(** [o.get(k, default)]: only a [dict] has the method. *)
Definition py_get (o : json) (k : string) (default : json) : result json :=
  match o with
  | JObj fields => Ok (dict_get fields k default)
  | _ => Raise (AttributeError
                  ("'" ++ type_name o ++ "' object has no attribute 'get'"))
  end.

(** [len(v)]. *)
Definition py_len (v : json) : result nat :=
  match v with
  | JStr s => Ok (str_len s)
  | JArr items => Ok (List.length items)
  | JObj fields => Ok (List.length fields)
  | _ => Raise (TypeError ("object of type '" ++ type_name v ++ "' has no len()"))
  end.

(** [v[:n]].  A [dict] takes the slice for a key and refuses it
    ([TypeError] up to Python 3.11, [KeyError] since). *)
Definition py_slice_to (n : nat) (v : json) : result json :=
  match v with
  | JStr s => Ok (JStr (str_take n s))
  | JArr items => Ok (JArr (firstn n items))
  | JObj _ => Raise (TypeError "unhashable type: 'slice'")
  | _ => Raise (TypeError ("'" ++ type_name v ++ "' object is not subscriptable"))
  end.

(** The items a [for] loop over [v] visits. *)
Definition py_iter (v : json) : result (list json) :=
  match v with
  | JStr s => Ok (map JStr (str_chars s))
  | JArr items => Ok items
  | JObj fields => Ok (map (fun kv => JStr (fst kv)) fields)
  | _ => Raise (TypeError ("'" ++ type_name v ++ "' object is not iterable"))
  end.

(** [a + b] where [b] is a [str]. *)
Definition py_add_str (a : json) (b : string) : result json :=
  match a with
  | JStr s => Ok (JStr (s ++ b))
  | JArr _ =>
      Raise (TypeError ("can only concatenate list (not " ++ dquote ++ "str"
                          ++ dquote ++ ") to list"))
  | _ => Raise (TypeError ("unsupported operand type(s) for +: '"
                             ++ type_name a ++ "' and 'str'"))
  end.

Fixpoint join_items (i : nat) (items : list json) : result (list string) :=
  match items with
  | [] => Ok []
  | JStr s :: rest => ss <~ join_items (S i) rest ;; Ok (s :: ss)
  | v :: _ =>
      Raise (TypeError ("sequence item " ++ str_of_nat i
                          ++ ": expected str instance, " ++ type_name v ++ " found"))
  end.

(** [sep.join(v)]. *)
Definition py_join (sep : string) (v : json) : result string :=
  items <~ py_iter v ;;
  ss <~ join_items 0 items ;;
  Ok (String.concat sep ss).

(** [for x in items: body], the loop carrying the state [s]. *)
Fixpoint for_each {X S : Type} (items : list X) (body : X -> S -> result S)
    (s : S) : result S :=
  match items with
  | [] => Ok s
  | x :: rest => s' <~ body x s ;; for_each rest body s'
  end.

(* ================================================================== *)
(** * The world: network, console, disk *)
(* ================================================================== *)

(** What [response.json()] does with the body: return the value it
    decodes, or raise.  On a body that is not JSON it raises
    [requests.exceptions.JSONDecodeError], a [RequestException]; other
    classes come out of the decoder as they are ([ValueError] for an
    integer of too many digits, [RecursionError] for a nesting too
    deep). *)
Inductive http_body : Type :=
| Json (v : json)
| Undecodable (e : exn).

Record Response : Type := { status_code : Z; body : http_body }.

(** What [session.get(url)] does: raise (a [RequestException] for a
    refused connection or a timeout, or an exception of another class)
    or return a response. *)
Inductive http_outcome : Type :=
| Raises (e : exn)
| Responds (r : Response).

(** [net w i url] is the outcome of the request for [url] when [i]
    requests were sent before it: the server may answer each request
    differently.  [disk_open w filename] is the exception, if any, of
    [open(filename, 'w')]; [disk_dump w filename document] is the
    exception, if any, raised while [document] is written to the open
    file and the file is closed. *)
Record world : Type := {
  net : nat -> string -> http_outcome;
  disk_open : string -> option exn;
  disk_dump : string -> json -> option exn
}.

(** ** rich *)

Record Column : Type := { header : string; style : string; no_wrap : bool }.

Record Table : Type := {
  table_title : string;
  table_columns : list Column;
  table_rows : list (list string)
}.

Definition new_Table (title : string) : Table :=
  {| table_title := title; table_columns := []; table_rows := [] |}.

Definition add_column (header style : string) (no_wrap : bool) (t : Table) : Table :=
  {| table_title := table_title t;
     table_columns :=
       (table_columns t
          ++ [{| header := header; style := style; no_wrap := no_wrap |}])%list;
     table_rows := table_rows t |}.

(** A cell of [Table.add_row] is a [str], or [None] for an empty cell;
    rich refuses any other object of the kinds [json.loads] builds. *)
Definition renderable (v : json) : result string :=
  match v with
  | JStr s => Ok s
  | JNull => Ok ""
  | _ => Raise (NotRenderableError
                  ("unable to render " ++ type_name v
                     ++ "; a string or other renderable object is required"))
  end.

Fixpoint renderables (cells : list json) : result (list string) :=
  match cells with
  | [] => Ok []
  | v :: rest => s <~ renderable v ;; ss <~ renderables rest ;; Ok (s :: ss)
  end.

Definition add_row (cells : list json) (t : Table) : result Table :=
  ss <~ renderables cells ;;
  Ok {| table_title := table_title t;
        table_columns := table_columns t;
        table_rows := (table_rows t ++ [ss])%list |}.

(** [FileOpen filename]: the file was opened for writing, which creates
    it or empties it.  [JsonDump filename document]: the whole of
    [document] was written to it. *)
Inductive event : Type :=
| HttpGet (url : string)
| ConsolePrint (text : string)
| ConsolePrintPanel (text title border_style : string)
| ConsolePrintTable (t : Table)
| ProgressDescription (description : string)
| FileOpen (filename : string)
| JsonDump (filename : string) (document : json).

(** ** The monad of the script

    A computation reads the world, starts when [n] requests have been
    sent, and gives the events it caused in order, the number of requests
    sent when it stops, and its value or the exception it raised.  Events
    caused before an exception stay. *)
Definition M (A : Type) : Type := world -> nat -> list event * nat * result A.

Definition ret {A} (a : A) : M A := fun _ n => ([], n, Ok a).

Definition raise {A} (e : exn) : M A := fun _ n => ([], n, Raise e).

Definition lift {A} (r : result A) : M A := fun _ n => ([], n, r).

Definition bind {A B} (m : M A) (k : A -> M B) : M B :=
  fun w n =>
    match m w n with
    | (out, n', Ok a) =>
        match k a w n' with (out', n'', r) => ((out ++ out')%list, n'', r) end
    | (out, n', Raise e) => (out, n', Raise e)
    end.

(** [try: body except ...: handler]; [handler e = None] when no [except]
    clause matches [e]. *)
Definition try_except {A} (body : M A) (handler : exn -> option (M A)) : M A :=
  fun w n =>
    match body w n with
    | (out, n', Raise e) =>
        match handler e with
        | Some h => match h w n' with (out', n'', r) => ((out ++ out')%list, n'', r) end
        | None => (out, n', Raise e)
        end
    | done => done
    end.

Definition emit (e : event) : M unit := fun _ n => ([e], n, Ok tt).

Declare Scope io_scope.
Delimit Scope io_scope with io.
Notation "x <- m ;; k" := (bind m (fun x => k))
  (at level 61, m at next level, right associativity) : io_scope.
Notation "m ;; k" := (bind m (fun _ => k))
  (at level 61, right associativity) : io_scope.
Local Open Scope io_scope.

Definition when (b : bool) (m : M unit) : M unit := if b then m else ret tt.

(** ** Console markup

    rich reads every text it prints as markup.  A tag is a [[] followed
    by one of [a-z#/@], then anything but [[], up to the first []]
    (rich's [RE_TAGS]); an odd number of backslashes just before the [[]
    makes it literal text.  A tag whose text begins with [/] closes a
    style, any other opens one. *)

Definition is_lower (c : ascii) : bool :=
  let n := nat_of_ascii c in (97 <=? n)%nat && (n <=? 122)%nat.

Definition tag_start (c : ascii) : bool :=
  is_lower c || Ascii.eqb c "#" || Ascii.eqb c "/" || Ascii.eqb c "@".

(** A plain style name, like [red] or [bold cyan]: lower-case letters
    and inner spaces only.  rich opens and closes such a style without
    looking anything up that could fail. *)
Definition style_name (name : string) : bool :=
  match list_ascii_of_string name, rev (list_ascii_of_string name) with
  | first :: _, last :: _ =>
      is_lower first && is_lower last
      && forallb (fun c => is_lower c || Ascii.eqb c " ") (list_ascii_of_string name)
  | _, _ => false
  end.

(** The open styles after the tag [text]: as they were when the tag is
    [escaped], an odd number of backslashes preceding it.  [None] for a
    tag the model does not judge: one that is not a plain style name, or
    that closes another style than the last one opened, or that closes
    when no style is open (rich raises [MarkupError] there). *)
Definition end_tag (stack : list string) (escaped : bool) (text : string)
    : option (list string) :=
  if escaped then Some stack
  else
    match text with
    | String "/" name =>
        match stack with
        | [] => None
        | top :: below =>
            if (name =? "") || (style_name name && (top =? name))
            then Some below else None
        end
    | _ => if style_name text then Some (text :: stack) else None
    end.

(** Where rich's parser is in a text: the open styles, innermost first;
    whether an odd number of backslashes was just read; and, after a [[],
    whether it is escaped and the text read since. *)
Definition markup_state : Type := list string * bool * option (bool * string).

(** Outside a tag: a [[] may begin one, a backslash counts. *)
Definition outside (stack : list string) (odd : bool) (c : ascii) : markup_state :=
  if Ascii.eqb c "[" then (stack, false, Some (odd, ""))
  else if Ascii.eqb c "\" then (stack, negb odd, None)
  else (stack, false, None).

(** One character further; [None] at the end of a tag that is not
    judged. *)
Definition step (c : ascii) (st : markup_state) : option markup_state :=
  match st with
  | (stack, odd, None) => Some (outside stack odd c)
  | (stack, odd, Some (escaped, "")) =>
      if tag_start c then Some (stack, false, Some (escaped, String c ""))
      else Some (outside stack false c)
  | (stack, odd, Some (escaped, t)) =>
      if Ascii.eqb c "]" then
        match end_tag stack escaped t with
        | Some stack' => Some (stack', false, None)
        | None => None
        end
      else if Ascii.eqb c "[" then Some (stack, false, Some (odd, ""))
      else Some (stack, (if Ascii.eqb c "\" then negb odd else false),
                 Some (escaped, t ++ String c ""))
  end.

(** One pass over [text], as rich's parser makes it. *)
Fixpoint scan (text : string) (st : markup_state) : option markup_state :=
  match text with
  | "" => Some st
  | String c rest =>
      match step c st with
      | Some st' => scan rest st'
      | None => None
      end
  end.

(** A text rich prints for sure: every tag in it is judged and takes its
    place, the styles being plain names closed in the order they were
    opened.  Styles left open at the end are closed by rich itself. *)
Definition accepted (text : string) : bool :=
  match scan text ([], false, None) with
  | Some _ => true
  | None => false
  end.

(** A text no part of which can begin a tag: every [[] in it is followed
    by a character that is none of [a-z#/@].  File names, URLs and
    messages put between the fixed parts of a line are of this kind when
    they hold no markup. *)
Fixpoint plain (s : string) : bool :=
  match s with
  | "" => true
  | String c s' =>
      (if Ascii.eqb c "["
       then match s' with
            | String d _ => negb (tag_start d)
            | "" => false
            end
       else true)
      && plain s'
  end.

(** Whether [s] ends with an odd number of backslashes, [odd] when it is
    empty. *)
Fixpoint trail (odd : bool) (s : string) : bool :=
  match s with
  | "" => odd
  | String c s' => trail (if Ascii.eqb c "\" then negb odd else false) s'
  end.

(** The fixed parts [parts] of a line take any plain text between them,
    from the open styles [stack] on. *)
Fixpoint frames_from (parts : list string) (stack : list string) : bool :=
  match parts with
  | [] => true
  | part :: rest =>
      forallb (fun odd =>
                 match scan part (stack, odd, None) with
                 | Some (stack', _, None) => frames_from rest stack'
                 | _ => false
                 end)
        [false; true]
  end.

(** A line that begins with [first] and goes on with [parts] is accepted
    whatever plain text is put before each of [parts]. *)
Definition frames (first : string) (parts : list string) : bool :=
  match scan first ([], false, None) with
  | Some (stack, _, None) => frames_from parts stack
  | _ => false
  end.

(** The exception of [console.print(text)], if it raises one. *)
Definition console_check (text : string) : option exn :=
  if accepted text then None else markup_error lib text.

Definition console_print (text : string) : M unit :=
  fun _ n =>
    match console_check text with
    | None => ([ConsolePrint text], n, Ok tt)
    | Some e => ([], n, Raise e)
    end.

(** [console.print(Panel(text, title=title, border_style=border_style))]:
    the title and the text are rendered as markup. *)
Definition console_print_panel (text title border_style : string) : M unit :=
  fun _ n =>
    match console_check title with
    | Some e => ([], n, Raise e)
    | None =>
        match console_check text with
        | Some e => ([], n, Raise e)
        | None => ([ConsolePrintPanel text title border_style], n, Ok tt)
        end
    end.

(** The texts rich renders to print a table, in its order: to measure
    the columns, each column's header and then its cells; then the
    title. *)
Definition table_texts (t : Table) : list string :=
  (concat (map (fun jc => header (snd jc)
                            :: map (fun row => nth (fst jc) row "") (table_rows t))
             (combine (seq 0 (List.length (table_columns t))) (table_columns t)))
     ++ [table_title t])%list.

Fixpoint first_refused (texts : list string) : option exn :=
  match texts with
  | [] => None
  | text :: rest =>
      match console_check text with
      | Some e => Some e
      | None => first_refused rest
      end
  end.

(** [console.print(table)]. *)
Definition console_print_table (t : Table) : M unit :=
  fun _ n =>
    match first_refused (table_texts t) with
    | None => ([ConsolePrintTable t], n, Ok tt)
    | Some e => ([], n, Raise e)
    end.

Definition session_get (url : string) : M Response :=
  fun w n =>
    match net w n url with
    | Raises e => ([HttpGet url], S n, Raise e)
    | Responds r => ([HttpGet url], S n, Ok r)
    end.

Definition response_json (r : Response) : result json :=
  match body r with
  | Json v => Ok v
  | Undecodable e => Raise e
  end.

(** [with open(filename, 'w') as f: json.dump(document, f)].  When the
    dump fails the file stays as the failure left it: opened, so emptied,
    and without the whole document. *)
Definition write_json (filename : string) (document : json) : M unit :=
  fun w n =>
    match disk_open w filename with
    | Some e => ([], n, Raise e)
    | None =>
        match disk_dump w filename document with
        | Some e => ([FileOpen filename], n, Raise e)
        | None => ([FileOpen filename; JsonDump filename document], n, Ok tt)
        end
    end.

(** [str(e)]. *)
Definition exn_str (e : exn) : string :=
  match e with
  | AttributeError msg | TypeError msg | ValueError msg | RecursionError msg
  | NotRenderableError msg | MarkupError msg
  | RequestException msg | OSError msg => msg
  | SystemExit code => str_of_Z code
  end.

(* ================================================================== *)
(** * class SnipeITClient *)
(* ================================================================== *)

Fixpoint rstrip_slash (s : string) : string :=
  match s with
  | "" => ""
  | String c s' =>
      let r := rstrip_slash s' in
      if (r =? "") && Ascii.eqb c "/"%char then "" else String c r
  end.

Record SnipeITClient : Type := {
  server_url : string;
  api_token : string;
  session_headers : list (string * string)
}.

Definition SnipeITClient_init (server_url api_token : string) : SnipeITClient :=
  {| server_url := rstrip_slash server_url;
     api_token := api_token;
     session_headers := [("Authorization", "Bearer " ++ api_token);
                         ("Accept", "application/json");
                         ("Content-Type", "application/json")] |}.

Definition client_test_connection (self : SnipeITClient) : M bool :=
  try_except
    (response <- session_get (server_url self ++ "/api/v1/statuslabels") ;;
     if (status_code response =? 200)%Z then ret true
     else
       console_print ("[red]Connection error: "
                        ++ str_of_Z (status_code response) ++ "[/red]") ;;
       ret false)
    (fun e =>
       match e with
       | RequestException msg =>
           Some (console_print ("[red]Connection error: " ++ msg ++ "[/red]") ;;
                 ret false)
       | _ => None
       end).

(** The value is [JNull] where the method returns [None]. *)
Definition get_api_data (self : SnipeITClient) (endpoint : string) : M json :=
  try_except
    (let url := server_url self ++ "/api/v1/" ++ endpoint in
     response <- session_get url ;;
     if (status_code response =? 200)%Z then lift (response_json response)
     else if (status_code response =? 404)%Z then
       console_print ("[yellow]Endpoint " ++ endpoint
         ++ " not found (404) - may not be available in this SnipeIT version[/yellow]") ;;
       ret JNull
     else if (status_code response =? 401)%Z then
       console_print ("[red]Authentication error (401) for " ++ endpoint
         ++ " - check your API token[/red]") ;;
       ret JNull
     else if (status_code response =? 403)%Z then
       console_print ("[red]Access denied (403) for " ++ endpoint
         ++ " - check your token permissions[/red]") ;;
       ret JNull
     else
       console_print ("[red]API error " ++ endpoint ++ ": "
                        ++ str_of_Z (status_code response) ++ "[/red]") ;;
       ret JNull)
    (fun e =>
       match e with
       | RequestException msg =>
           Some (console_print ("[red]Request error " ++ endpoint ++ ": "
                                  ++ msg ++ "[/red]") ;;
                 ret JNull)
       | _ => None
       end).

(* ================================================================== *)
(** * class SnipeITSettingsLister *)
(* ================================================================== *)

Record SnipeITSettingsLister : Type := { client : SnipeITClient }.

(** [str(o.get(k, default))]. *)
Definition str_get (o : json) (k : string) (default : json) : result json :=
  v <~ py_get o k default ;; Ok (JStr (py_str v)).

Definition display_server_info (self : SnipeITSettingsLister) : M unit :=
  console_print_panel
    ("[bold blue]Server:[/bold blue] " ++ server_url (client self) ++ nl
       ++ "[bold blue]Token:[/bold blue] "
       ++ str_take 10 (api_token (client self)) ++ "...")
    "[bold green]SnipeIT Configuration[/bold green]"
    "blue".

Definition test_connection (self : SnipeITSettingsLister) : M bool :=
  emit (ProgressDescription "Testing connection...") ;;
  ok <- client_test_connection (client self) ;;
  if ok then
    emit (ProgressDescription "✅ Connection successful") ;;
    console_print "[green]Successfully connected to SnipeIT server![/green]" ;;
    ret true
  else
    emit (ProgressDescription "❌ Connection failed") ;;
    console_print "[red]Unable to connect to SnipeIT server[/red]" ;;
    ret false.

(** ** Categories *)

Definition category_row (category : json) : result (list json) :=
  c1 <~ str_get category "id" (JStr "") ;;
  c2 <~ py_get category "name" (JStr "") ;;
  c3 <~ py_get category "category_type" (JStr "") ;;
  c4 <~ str_get category "assets_count" (JInt 0) ;;
  Ok [c1; c2; c3; c4].

Definition list_asset_types (self : SnipeITSettingsLister) : M unit :=
  console_print (nl ++ "[bold cyan]📋 Asset Types[/bold cyan]") ;;
  data <- get_api_data (client self) "categories" ;;
  if negb (truthy data) then
    console_print "[red]Unable to retrieve categories[/red]"
  else
    let table := new_Table "Asset Categories" in
    let table := add_column "ID" "cyan" true table in
    let table := add_column "Name" "green" false table in
    let table := add_column "Type" "yellow" false table in
    let table := add_column "Asset Count" "magenta" false table in
    table <- lift (rows <~ py_get data "rows" (JArr []) ;;
                   items <~ py_iter rows ;;
                   for_each items
                     (fun category t => cells <~ category_row category ;; add_row cells t)
                     table) ;;
    console_print_table table.

(** ** Models *)

Definition model_row (model : json) : result (list json) :=
  c1 <~ str_get model "id" (JStr "") ;;
  c2 <~ py_get model "name" (JStr "") ;;
  category <~ py_get model "category" (JObj []) ;;
  c3 <~ py_get category "name" (JStr "") ;;
  manufacturer <~ py_get model "manufacturer" (JObj []) ;;
  c4 <~ py_get manufacturer "name" (JStr "") ;;
  c5 <~ str_get model "assets_count" (JInt 0) ;;
  Ok [c1; c2; c3; c4; c5].

Definition list_models (self : SnipeITSettingsLister) : M unit :=
  console_print (nl ++ "[bold cyan]🔧 Models[/bold cyan]") ;;
  data <- get_api_data (client self) "models" ;;
  if negb (truthy data) then
    console_print "[red]Unable to retrieve models[/red]"
  else
    let table := new_Table "Asset Models" in
    let table := add_column "ID" "cyan" true table in
    let table := add_column "Name" "green" false table in
    let table := add_column "Category" "yellow" false table in
    let table := add_column "Manufacturer" "blue" false table in
    let table := add_column "Asset Count" "magenta" false table in
    table <- lift (rows <~ py_get data "rows" (JArr []) ;;
                   shown <~ py_slice_to 20 rows ;;
                   items <~ py_iter shown ;;
                   for_each items
                     (fun model t => cells <~ model_row model ;; add_row cells t)
                     table) ;;
    count <- lift (rows <~ py_get data "rows" (JArr []) ;; py_len rows) ;;
    when (20 <? count)%nat
      (console_print ("[yellow]... and " ++ str_of_nat (count - 20)
                        ++ " other models[/yellow]")) ;;
    console_print_table table.

(** ** Custom fields *)

Definition field_row (field : json) : result (list json) :=
  flag <~ py_get field "required" (JBool false) ;;
  let required := if truthy flag then "✅" else "❌" in
  elements <~ py_get field "field_values_array" (JArr []) ;;
  let elements := match elements with JNull => JArr [] | _ => elements end in
  first3 <~ py_slice_to 3 elements ;;
  joined <~ py_join ", " first3 ;;
  count <~ py_len elements ;;
  let elements_str := joined ++ (if (3 <? count)%nat then "..." else "") in
  c1 <~ str_get field "id" (JStr "") ;;
  c2 <~ py_get field "name" (JStr "") ;;
  c3 <~ py_get field "format" (JStr "") ;;
  c4 <~ py_get field "field_type" (JStr "") ;;
  Ok [c1; c2; c3; c4; JStr required; JStr elements_str].

Definition list_custom_fields (self : SnipeITSettingsLister) : M unit :=
  console_print (nl ++ "[bold cyan]🏷️ Custom Fields[/bold cyan]") ;;
  data <- get_api_data (client self) "fields" ;;
  if negb (truthy data) then
    console_print "[yellow]No custom fields found or endpoint not available[/yellow]" ;;
    console_print
      "[yellow]Note: Custom fields may not be enabled in your SnipeIT instance[/yellow]"
  else
    let table := new_Table "Custom Fields" in
    let table := add_column "ID" "cyan" true table in
    let table := add_column "Name" "green" false table in
    let table := add_column "Type" "yellow" false table in
    let table := add_column "Format" "blue" false table in
    let table := add_column "Required" "magenta" false table in
    let table := add_column "Elements" "white" false table in
    table <- lift (rows <~ py_get data "rows" (JArr []) ;;
                   items <~ py_iter rows ;;
                   for_each items
                     (fun field t => cells <~ field_row field ;; add_row cells t)
                     table) ;;
    console_print_table table.

(** ** Status labels *)

Definition status_row (status : json) : result (list json) :=
  color <~ py_get status "color" (JStr "") ;;
  let color_display :=
    if truthy color
    then "[" ++ py_str color ++ "]" ++ py_str color ++ "[/" ++ py_str color ++ "]"
    else "" in
  c1 <~ str_get status "id" (JStr "") ;;
  c2 <~ py_get status "name" (JStr "") ;;
  c3 <~ py_get status "type" (JStr "") ;;
  pivot <~ py_get status "pivot" (JObj []) ;;
  c5 <~ str_get pivot "assets_count" (JInt 0) ;;
  Ok [c1; c2; c3; JStr color_display; c5].

Definition list_status_labels (self : SnipeITSettingsLister) : M unit :=
  console_print (nl ++ "[bold cyan]🏷️ Status Labels[/bold cyan]") ;;
  data <- get_api_data (client self) "statuslabels" ;;
  if negb (truthy data) then
    console_print "[red]Unable to retrieve status labels[/red]"
  else
    let table := new_Table "Status Labels" in
    let table := add_column "ID" "cyan" true table in
    let table := add_column "Name" "green" false table in
    let table := add_column "Type" "yellow" false table in
    let table := add_column "Color" "blue" false table in
    let table := add_column "Pivot" "magenta" false table in
    table <- lift (rows <~ py_get data "rows" (JArr []) ;;
                   items <~ py_iter rows ;;
                   for_each items
                     (fun status t => cells <~ status_row status ;; add_row cells t)
                     table) ;;
    console_print_table table.

(** ** Companies *)

Definition company_row (company : json) : result (list json) :=
  c1 <~ str_get company "id" (JStr "") ;;
  c2 <~ py_get company "name" (JStr "") ;;
  c3 <~ str_get company "assets_count" (JInt 0) ;;
  c4 <~ str_get company "licenses_count" (JInt 0) ;;
  c5 <~ str_get company "accessories_count" (JInt 0) ;;
  Ok [c1; c2; c3; c4; c5].

Definition list_companies (self : SnipeITSettingsLister) : M unit :=
  console_print (nl ++ "[bold cyan]🏢 Companies[/bold cyan]") ;;
  data <- get_api_data (client self) "companies" ;;
  if negb (truthy data) then
    console_print "[red]Unable to retrieve companies[/red]"
  else
    let table := new_Table "Companies" in
    let table := add_column "ID" "cyan" true table in
    let table := add_column "Name" "green" false table in
    let table := add_column "Assets" "yellow" false table in
    let table := add_column "Licenses" "blue" false table in
    let table := add_column "Accessories" "magenta" false table in
    table <- lift (rows <~ py_get data "rows" (JArr []) ;;
                   shown <~ py_slice_to 15 rows ;;
                   items <~ py_iter shown ;;
                   for_each items
                     (fun company t => cells <~ company_row company ;; add_row cells t)
                     table) ;;
    count <- lift (rows <~ py_get data "rows" (JArr []) ;; py_len rows) ;;
    when (15 <? count)%nat
      (console_print ("[yellow]... and " ++ str_of_nat (count - 15)
                        ++ " other companies[/yellow]")) ;;
    console_print_table table.

(** ** Locations *)

(** [address_display], from the value of [location.get('address', '')]. *)
Definition address_display (address : json) : result json :=
  let address := match address with JNull => JStr "" | _ => address end in
  count <~ py_len address ;;
  if (30 <? count)%nat
  then (head <~ py_slice_to 30 address ;; py_add_str head "...")
  else Ok address.

Definition location_row (location : json) : result (list json) :=
  parent <~ py_get location "parent" (JObj []) ;;
  parent_name <~ (if truthy parent then py_get parent "name" (JStr "")
                  else Ok (JStr "")) ;;
  address <~ py_get location "address" (JStr "") ;;
  address_display <~ address_display address ;;
  c1 <~ str_get location "id" (JStr "") ;;
  c2 <~ py_get location "name" (JStr "") ;;
  c4 <~ str_get location "assets_count" (JInt 0) ;;
  Ok [c1; c2; parent_name; c4; address_display].

Definition list_locations (self : SnipeITSettingsLister) : M unit :=
  console_print (nl ++ "[bold cyan]📍 Locations[/bold cyan]") ;;
  data <- get_api_data (client self) "locations" ;;
  if negb (truthy data) then
    console_print "[red]Unable to retrieve locations[/red]"
  else
    let table := new_Table "Locations" in
    let table := add_column "ID" "cyan" true table in
    let table := add_column "Name" "green" false table in
    let table := add_column "Parent" "yellow" false table in
    let table := add_column "Assets" "blue" false table in
    let table := add_column "Address" "magenta" false table in
    table <- lift (rows <~ py_get data "rows" (JArr []) ;;
                   shown <~ py_slice_to 15 rows ;;
                   items <~ py_iter shown ;;
                   for_each items
                     (fun location t => cells <~ location_row location ;; add_row cells t)
                     table) ;;
    count <- lift (rows <~ py_get data "rows" (JArr []) ;; py_len rows) ;;
    when (15 <? count)%nat
      (console_print ("[yellow]... and " ++ str_of_nat (count - 15)
                        ++ " other locations[/yellow]")) ;;
    console_print_table table.

(** ** Departments *)

Definition department_row (dept : json) : result (list json) :=
  company <~ py_get dept "company" (JObj []) ;;
  company_name <~ (if truthy company then py_get company "name" (JStr "")
                   else Ok (JStr "")) ;;
  manager <~ py_get dept "manager" (JObj []) ;;
  manager_name <~ (if truthy manager then py_get manager "name" (JStr "")
                   else Ok (JStr "")) ;;
  c1 <~ str_get dept "id" (JStr "") ;;
  c2 <~ py_get dept "name" (JStr "") ;;
  c5 <~ str_get dept "users_count" (JInt 0) ;;
  Ok [c1; c2; company_name; manager_name; c5].

Definition list_departments (self : SnipeITSettingsLister) : M unit :=
  console_print (nl ++ "[bold cyan]🏢 Departments[/bold cyan]") ;;
  data <- get_api_data (client self) "departments" ;;
  if negb (truthy data) then
    console_print "[red]Unable to retrieve departments[/red]"
  else
    let table := new_Table "Departments" in
    let table := add_column "ID" "cyan" true table in
    let table := add_column "Name" "green" false table in
    let table := add_column "Company" "yellow" false table in
    let table := add_column "Manager" "blue" false table in
    let table := add_column "Users" "magenta" false table in
    table <- lift (rows <~ py_get data "rows" (JArr []) ;;
                   shown <~ py_slice_to 15 rows ;;
                   items <~ py_iter shown ;;
                   for_each items
                     (fun dept t => cells <~ department_row dept ;; add_row cells t)
                     table) ;;
    count <- lift (rows <~ py_get data "rows" (JArr []) ;; py_len rows) ;;
    when (15 <? count)%nat
      (console_print ("[yellow]... and " ++ str_of_nat (count - 15)
                        ++ " other departments[/yellow]")) ;;
    console_print_table table.

(** ** Suppliers *)

Definition supplier_row (supplier : json) : result (list json) :=
  c1 <~ str_get supplier "id" (JStr "") ;;
  c2 <~ py_get supplier "name" (JStr "") ;;
  c3 <~ py_get supplier "contact" (JStr "") ;;
  c4 <~ py_get supplier "email" (JStr "") ;;
  c5 <~ py_get supplier "phone" (JStr "") ;;
  Ok [c1; c2; c3; c4; c5].

Definition list_suppliers (self : SnipeITSettingsLister) : M unit :=
  console_print (nl ++ "[bold cyan]🏪 Suppliers[/bold cyan]") ;;
  data <- get_api_data (client self) "suppliers" ;;
  if negb (truthy data) then
    console_print "[red]Unable to retrieve suppliers[/red]"
  else
    let table := new_Table "Suppliers" in
    let table := add_column "ID" "cyan" true table in
    let table := add_column "Name" "green" false table in
    let table := add_column "Contact" "yellow" false table in
    let table := add_column "Email" "blue" false table in
    let table := add_column "Phone" "magenta" false table in
    table <- lift (rows <~ py_get data "rows" (JArr []) ;;
                   shown <~ py_slice_to 15 rows ;;
                   items <~ py_iter shown ;;
                   for_each items
                     (fun supplier t => cells <~ supplier_row supplier ;; add_row cells t)
                     table) ;;
    count <- lift (rows <~ py_get data "rows" (JArr []) ;; py_len rows) ;;
    when (15 <? count)%nat
      (console_print ("[yellow]... and " ++ str_of_nat (count - 15)
                        ++ " other suppliers[/yellow]")) ;;
    console_print_table table.

(** ** Manufacturers *)

(** [url_display], from the value of [manufacturer.get('url', '')]. *)
Definition url_display (url : json) : result json :=
  let url := match url with JNull => JStr "" | _ => url end in
  count <~ py_len url ;;
  if (30 <? count)%nat
  then (head <~ py_slice_to 30 url ;; py_add_str head "...")
  else Ok url.

Definition manufacturer_row (manufacturer : json) : result (list json) :=
  url <~ py_get manufacturer "url" (JStr "") ;;
  url_display <~ url_display url ;;
  c1 <~ str_get manufacturer "id" (JStr "") ;;
  c2 <~ py_get manufacturer "name" (JStr "") ;;
  c4 <~ py_get manufacturer "support_email" (JStr "") ;;
  c5 <~ py_get manufacturer "support_phone" (JStr "") ;;
  Ok [c1; c2; url_display; c4; c5].

Definition list_manufacturers (self : SnipeITSettingsLister) : M unit :=
  console_print (nl ++ "[bold cyan]🏭 Manufacturers[/bold cyan]") ;;
  data <- get_api_data (client self) "manufacturers" ;;
  if negb (truthy data) then
    console_print "[red]Unable to retrieve manufacturers[/red]"
  else
    let table := new_Table "Manufacturers" in
    let table := add_column "ID" "cyan" true table in
    let table := add_column "Name" "green" false table in
    let table := add_column "URL" "yellow" false table in
    let table := add_column "Support Email" "blue" false table in
    let table := add_column "Support Phone" "magenta" false table in
    table <- lift (rows <~ py_get data "rows" (JArr []) ;;
                   shown <~ py_slice_to 15 rows ;;
                   items <~ py_iter shown ;;
                   for_each items
                     (fun manufacturer t =>
                        cells <~ manufacturer_row manufacturer ;; add_row cells t)
                     table) ;;
    count <- lift (rows <~ py_get data "rows" (JArr []) ;; py_len rows) ;;
    when (15 <? count)%nat
      (console_print ("[yellow]... and " ++ str_of_nat (count - 15)
                        ++ " other manufacturers[/yellow]")) ;;
    console_print_table table.

(** ** The table of API endpoints *)

Definition endpoints : list (string * string) :=
  [("hardware", "Hardware assets"); ("models", "Models");
   ("categories", "Categories"); ("fields", "Custom fields");
   ("statuslabels", "Status labels"); ("companies", "Companies");
   ("locations", "Locations"); ("departments", "Departments");
   ("suppliers", "Suppliers"); ("manufacturers", "Manufacturers");
   ("users", "Users"); ("licenses", "Licenses");
   ("accessories", "Accessories"); ("consumables", "Consumables");
   ("components", "Components")].

Definition show_api_endpoints (self : SnipeITSettingsLister) : M unit :=
  console_print (nl ++ "[bold cyan]🔗 Available API Endpoints[/bold cyan]") ;;
  let table := new_Table "SnipeIT API Endpoints" in
  let table := add_column "Endpoint" "cyan" false table in
  let table := add_column "Description" "green" false table in
  let table := add_column "URL" "yellow" false table in
  table <- lift (for_each endpoints
                   (fun '(endpoint, description) t =>
                      let url := server_url (client self) ++ "/api/v1/" ++ endpoint in
                      add_row [JStr endpoint; JStr description; JStr url] t)
                   table) ;;
  console_print_table table.

(** ** Export *)

Definition export_config (self : SnipeITSettingsLister) (filename : string) : M unit :=
  console_print (nl ++ "[bold cyan]💾 Exporting configuration to " ++ filename
                   ++ "[/bold cyan]") ;;
  categories <- get_api_data (client self) "categories" ;;
  models <- get_api_data (client self) "models" ;;
  fields <- get_api_data (client self) "fields" ;;
  statuslabels <- get_api_data (client self) "statuslabels" ;;
  companies <- get_api_data (client self) "companies" ;;
  locations <- get_api_data (client self) "locations" ;;
  departments <- get_api_data (client self) "departments" ;;
  suppliers <- get_api_data (client self) "suppliers" ;;
  manufacturers <- get_api_data (client self) "manufacturers" ;;
  let config :=
    JObj [("server_url", JStr (server_url (client self)));
          ("timestamp", JNull);
          ("categories", categories);
          ("models", models);
          ("fields", fields);
          ("statuslabels", statuslabels);
          ("companies", companies);
          ("locations", locations);
          ("departments", departments);
          ("suppliers", suppliers);
          ("manufacturers", manufacturers)] in
  try_except
    (write_json filename config ;;
     console_print ("[green]Configuration exported successfully to " ++ filename
                      ++ "[/green]"))
    (fun e =>
       match e with
       | SystemExit _ => None
       | _ => Some (console_print ("[red]Error during export: " ++ exn_str e ++ "[/red]"))
       end).

(* ================================================================== *)
(** * main *)
(* ================================================================== *)

(** The namespace [parser.parse_args()] returns. *)
Record Args : Type := {
  args_server : string;
  args_token : string;
  args_all : bool;
  args_categories : bool;
  args_models : bool;
  args_custom_fields : bool;
  args_status_labels : bool;
  args_companies : bool;
  args_locations : bool;
  args_departments : bool;
  args_suppliers : bool;
  args_manufacturers : bool;
  args_api_endpoints : bool;
  args_export : bool;
  args_export_file : string
}.

(** [any([...])]. *)
Definition any (flags : list bool) : bool := existsb (fun b => b) flags.

Definition show_all (args : Args) : bool :=
  args_all args
  || negb (any [args_categories args; args_models args; args_custom_fields args;
                args_status_labels args; args_companies args; args_locations args;
                args_departments args; args_suppliers args;
                args_manufacturers args; args_api_endpoints args]).

Definition main (args : Args) : M unit :=
  (if negb (prefix "http://" (args_server args) || prefix "https://" (args_server args))
   then
     console_print "[red]Server URL must start with http:// or https://[/red]" ;;
     raise (SystemExit 1)
   else ret tt) ;;
  let client := SnipeITClient_init (args_server args) (args_token args) in
  let lister := {| client := client |} in
  display_server_info lister ;;
  connected <- test_connection lister ;;
  (if negb connected then raise (SystemExit 1) else ret tt) ;;
  let show_all := show_all args in
  when (show_all || args_categories args) (list_asset_types lister) ;;
  when (show_all || args_models args) (list_models lister) ;;
  when (show_all || args_custom_fields args) (list_custom_fields lister) ;;
  when (show_all || args_status_labels args) (list_status_labels lister) ;;
  when (show_all || args_companies args) (list_companies lister) ;;
  when (show_all || args_locations args) (list_locations lister) ;;
  when (show_all || args_departments args) (list_departments lister) ;;
  when (show_all || args_suppliers args) (list_suppliers lister) ;;
  when (show_all || args_manufacturers args) (list_manufacturers lister) ;;
  when (show_all || args_api_endpoints args) (show_api_endpoints lister) ;;
  when (args_export args) (export_config lister (args_export_file args)) ;;
  console_print (nl ++ "[bold green]✅ Analysis completed![/bold green]").

(** The exit status of the interpreter: 0 when [main] returns, the
    argument of [sys.exit], and 1 for an exception nobody caught. *)
Definition exit_code {A} (r : result A) : Z :=
  match r with
  | Ok _ => 0
  | Raise (SystemExit code) => code
  | Raise _ => 1
  end.

(** A run of the script: no request has been sent when it starts. *)
Definition run (args : Args) (w : world) : list event * nat * result unit :=
  main args w 0%nat.

Definition events_of {A} (r : list event * nat * result A) : list event := fst (fst r).
Definition outcome_of {A} (r : list event * nat * result A) : result A := snd r.

(* ================================================================== *)
(** * The nine fetched listings, by resource kind *)
(* ================================================================== *)

Inductive kind : Type :=
| Categories | Models | Fields | StatusLabels | Companies
| Locations | Departments | Suppliers | Manufacturers.

Definition lister_of (k : kind) : SnipeITSettingsLister -> M unit :=
  match k with
  | Categories => list_asset_types
  | Models => list_models
  | Fields => list_custom_fields
  | StatusLabels => list_status_labels
  | Companies => list_companies
  | Locations => list_locations
  | Departments => list_departments
  | Suppliers => list_suppliers
  | Manufacturers => list_manufacturers
  end.

(** The endpoint the lister of a kind fetches. *)
Definition endpoint_of (k : kind) : string :=
  match k with
  | Categories => "categories"
  | Models => "models"
  | Fields => "fields"
  | StatusLabels => "statuslabels"
  | Companies => "companies"
  | Locations => "locations"
  | Departments => "departments"
  | Suppliers => "suppliers"
  | Manufacturers => "manufacturers"
  end.

(** The cells the lister of a kind computes for one record. *)
Definition row_of (k : kind) : json -> result (list json) :=
  match k with
  | Categories => category_row
  | Models => model_row
  | Fields => field_row
  | StatusLabels => status_row
  | Companies => company_row
  | Locations => location_row
  | Departments => department_row
  | Suppliers => supplier_row
  | Manufacturers => manufacturer_row
  end.

(** The slice bound of the lister's loop, if it has one. *)
Definition cap_of (k : kind) : option nat :=
  match k with
  | Models => Some 20%nat
  | Companies | Locations | Departments | Suppliers | Manufacturers => Some 15%nat
  | Categories | Fields | StatusLabels => None
  end.

(** The plural the overflow notice of a capped lister ends in. *)
Definition noun_of (k : kind) : string :=
  match k with
  | Companies => "companies"
  | Locations => "locations"
  | Departments => "departments"
  | Suppliers => "suppliers"
  | Manufacturers => "manufacturers"
  | _ => "models"
  end.

Definition api_url (self : SnipeITClient) (endpoint : string) : string :=
  server_url self ++ "/api/v1/" ++ endpoint.

(** A response with status 200 and a JSON body. *)
Definition ok_200 (v : json) : http_outcome :=
  Responds {| status_code := 200; body := Json v |}.

(** What [get_api_data] returns for an outcome of the request, when it
    returns. *)
Definition fetched (o : http_outcome) : json :=
  match o with
  | Responds {| status_code := code; body := Json v |} =>
      if (code =? 200)%Z then v else JNull
  | _ => JNull
  end.

(** What the fetch of [endpoint] returns when it is the request number
    [i] after the first [n]. *)
Definition fetched_at (self : SnipeITSettingsLister) (w : world) (n i : nat)
    (endpoint : string) : json :=
  fetched (net w (i + n)%nat (api_url (client self) endpoint)).

(** The document the export builds when its nine fetches are the
    requests number [n] to [n + 8]. *)
Definition export_document (self : SnipeITSettingsLister) (w : world) (n : nat) : json :=
  JObj [("server_url", JStr (server_url (client self)));
        ("timestamp", JNull);
        ("categories", fetched_at self w n 0 "categories");
        ("models", fetched_at self w n 1 "models");
        ("fields", fetched_at self w n 2 "fields");
        ("statuslabels", fetched_at self w n 3 "statuslabels");
        ("companies", fetched_at self w n 4 "companies");
        ("locations", fetched_at self w n 5 "locations");
        ("departments", fetched_at self w n 6 "departments");
        ("suppliers", fetched_at self w n 7 "suppliers");
        ("manufacturers", fetched_at self w n 8 "manufacturers")].

(** The last statement of [export_config]: the [try] that writes
    [config] and its handler. *)
Definition export_write (filename : string) (config : json) : M unit :=
  try_except
    (write_json filename config ;;
     console_print ("[green]Configuration exported successfully to " ++ filename
                      ++ "[/green]"))
    (fun e =>
       match e with
       | SystemExit _ => None
       | _ => Some (console_print ("[red]Error during export: " ++ exn_str e ++ "[/red]"))
       end).

(** A record goes into the table when its cells can be computed and
    [add_row] takes them. *)
Definition renders (k : kind) (record : json) : bool :=
  is_Ok (cells <~ row_of k record ;; renderables cells).

(** A record is shown when it goes into the table and rich prints each of
    its cells for sure. *)
Definition shows (k : kind) (record : json) : bool :=
  match (cells <~ row_of k record ;; renderables cells) with
  | Ok texts => forallb accepted texts
  | Raise _ => false
  end.

Definition is_HttpGet (e : event) : bool :=
  match e with HttpGet _ => true | _ => false end.

Definition is_JsonDump (e : event) : bool :=
  match e with JsonDump _ _ => true | _ => false end.

(** ** Sample inputs *)

Definition sample_client : SnipeITClient :=
  SnipeITClient_init "https://snipe.example.com/" "eyJ0eXAiOiJKV1QiLCJhbGciOi".

Definition sample_lister : SnipeITSettingsLister := {| client := sample_client |}.

(** A server that gives every request the same outcome, and a disk that
    takes every file. *)
Definition constant_world (o : http_outcome) : world :=
  {| net := fun _ _ => o;
     disk_open := fun _ => None;
     disk_dump := fun _ _ => None |}.

(** A server that answers the connectivity probe with 200 and every
    later request with [o]. *)
Definition world_after_probe (o : http_outcome) : world :=
  {| net := fun i _ => match i with
                       | O => ok_200 (JObj [("total", JInt 0); ("rows", JArr [])])
                       | S _ => o
                       end;
     disk_open := fun _ => None;
     disk_dump := fun _ _ => None |}.

(** The connection is refused. *)
Definition connection_refused : http_outcome :=
  Raises (RequestException "Connection refused").

(** Two well-formed categories. *)
Definition two_categories : json :=
  JObj [("total", JInt 2);
        ("rows", JArr [JObj [("id", JInt 1); ("name", JStr "Laptops");
                             ("category_type", JStr "asset");
                             ("assets_count", JInt 12)];
                       JObj [("id", JInt 2); ("name", JStr "Toner");
                             ("category_type", JStr "consumable");
                             ("assets_count", JInt 0)]])].

(** A server that passes the connectivity test, then answers the
    requests for the categories and refuses every other connection; the
    disk is full. *)
Definition categories_only_world : world :=
  {| net := fun i url =>
              match i with
              | O => ok_200 (JObj [("total", JInt 0); ("rows", JArr [])])
              | S _ =>
                  if url =? "https://snipe.example.com/api/v1/categories"
                  then ok_200 two_categories
                  else connection_refused
              end;
     disk_open := fun _ => None;
     disk_dump := fun _ _ => Some (OSError "[Errno 28] No space left on device") |}.

(** Twenty-two well-formed model records. *)
Definition twenty_two_models : list json :=
  repeat (JObj [("id", JInt 1); ("name", JStr "Latitude 5420");
                ("category", JObj [("id", JInt 2); ("name", JStr "Laptops")]);
                ("manufacturer", JObj [("id", JInt 3); ("name", JStr "Dell")]);
                ("assets_count", JInt 4)]) 22.

(** A model whose category was deleted: the API sends [null] for it. *)
Definition models_with_null_category : json :=
  JObj [("total", JInt 1);
        ("rows", JArr [JObj [("id", JInt 7); ("name", JStr "Latitude 5420");
                             ("manufacturer",
                              JObj [("id", JInt 3); ("name", JStr "Dell")]);
                             ("category", JNull);
                             ("assets_count", JInt 4)]])].

(** A status label that carries [pivot: null]. *)
Definition statuslabels_with_null_pivot : json :=
  JObj [("total", JInt 1);
        ("rows", JArr [JObj [("id", JInt 2); ("name", JStr "Ready to Deploy");
                             ("type", JStr "deployable");
                             ("color", JStr "green");
                             ("pivot", JNull)]])].

(** The exception of [None.get(...)]. *)
Definition no_get_on_None : exn :=
  AttributeError "'NoneType' object has no attribute 'get'".


(** A login page served with status 200 instead of JSON. *)
Definition html_page : http_outcome :=
  Responds {| status_code := 200;
              body := Undecodable
                        (RequestException
                           "Expecting value: line 1 column 1 (char 0)") |}.

(** A street of 30 characters, one of them outside ASCII, and a street
    of 15 characters none of which is in ASCII. *)
Definition rue_of_30 : string := "12 rue de l'Église 75001 Paris".
Definition street_of_tokyo : string := "東京都千代田区丸の内一丁目九番".

(** The arguments of a command line with [-s], [-t] and no flag. *)
Definition plain_args (server token : string) : Args :=
  {| args_server := server; args_token := token;
     args_all := false; args_categories := false; args_models := false;
     args_custom_fields := false; args_status_labels := false;
     args_companies := false; args_locations := false;
     args_departments := false; args_suppliers := false;
     args_manufacturers := false; args_api_endpoints := false;
     args_export := false; args_export_file := "snipeit_config.json" |}.

(** The same command line with [--all] added. *)
Definition with_all (args : Args) : Args :=
  {| args_server := args_server args; args_token := args_token args;
     args_all := true;
     args_categories := args_categories args; args_models := args_models args;
     args_custom_fields := args_custom_fields args;
     args_status_labels := args_status_labels args;
     args_companies := args_companies args; args_locations := args_locations args;
     args_departments := args_departments args;
     args_suppliers := args_suppliers args;
     args_manufacturers := args_manufacturers args;
     args_api_endpoints := args_api_endpoints args;
     args_export := args_export args;
     args_export_file := args_export_file args |}.

(** The same command line with [--export] added. *)
Definition with_export (args : Args) : Args :=
  {| args_server := args_server args; args_token := args_token args;
     args_all := args_all args;
     args_categories := args_categories args; args_models := args_models args;
     args_custom_fields := args_custom_fields args;
     args_status_labels := args_status_labels args;
     args_companies := args_companies args; args_locations := args_locations args;
     args_departments := args_departments args;
     args_suppliers := args_suppliers args;
     args_manufacturers := args_manufacturers args;
     args_api_endpoints := args_api_endpoints args;
     args_export := true;
     args_export_file := args_export_file args |}.

(** No selection flag was given. *)
Definition no_selection (args : Args) : bool :=
  negb (args_all args
        || any [args_categories args; args_models args; args_custom_fields args;
                args_status_labels args; args_companies args; args_locations args;
                args_departments args; args_suppliers args;
                args_manufacturers args; args_api_endpoints args]).


(** ** Vocabulary of the statements about [main] *)

(** The client [main] builds from its arguments. *)
Definition startup_client (args : Args) : SnipeITClient :=
  SnipeITClient_init (args_server args) (args_token args).

(** The URL the connectivity test requests. *)
Definition probe_url (args : Args) : string :=
  server_url (startup_client args) ++ "/api/v1/statuslabels".

(** The test [main] makes on [args.server]. *)
Definition valid_scheme (args : Args) : bool :=
  prefix "http://" (args_server args) || prefix "https://" (args_server args).

(** The connectivity test passes on this outcome. *)
Definition probe_ok (o : http_outcome) : bool :=
  match o with
  | Responds r => (status_code r =? 200)%Z
  | Raises _ => false
  end.

(** An exception the clause [except RequestException as e] catches and
    whose text, put into the line the handler prints, holds no markup. *)
Definition request_error (e : exn) : bool :=
  match e with
  | RequestException msg => plain msg
  | _ => false
  end.

(** The connectivity test fails on this outcome and ends the run with
    status 1: a status other than 200, a request error as above, or an
    exception of another class that nothing catches. *)
Definition probe_fails (o : http_outcome) : bool :=
  match o with
  | Responds r => negb (status_code r =? 200)%Z
  | Raises (RequestException msg) => plain msg
  | Raises (SystemExit _) => false
  | Raises _ => true
  end.

(** An outcome [get_api_data] answers by returning: any response whose
    status is not 200, a 200 response whose body is JSON, and a request
    error as above, raised by the request or by the decoding of a 200
    body. *)
Definition answers (o : http_outcome) : bool :=
  match o with
  | Raises e => request_error e
  | Responds r =>
      if (status_code r =? 200)%Z
      then match body r with
           | Json _ => true
           | Undecodable e => request_error e
           end
      else true
  end.

(** An outcome the lister of [k] gets through: a fetch that failed or
    brought a falsy body, or a 200 response whose object has no [rows],
    or has a list of records of which those the lister shows are
    shown. *)
Definition listable (k : kind) (o : http_outcome) : Prop :=
  (answers o = true /\ truthy (fetched o) = false)
  \/ exists fields,
      o = ok_200 (JObj fields)
      /\ fields <> []
      /\ match lookup "rows" fields with
         | None => True
         | Some (JArr rows) =>
             forallb (shows k)
               (match cap_of k with Some c => firstn c rows | None => rows end)
             = true
         | Some _ => False
         end.

(** An exception the clause [except Exception as e] of the export catches
    and whose text, put into the line the handler prints, holds no
    markup. *)
Definition export_error (e : exn) : bool :=
  match e with
  | SystemExit _ => false
  | _ => plain (exn_str e)
  end.

(** The disk takes [document] under [filename], or fails with an export
    error as above. *)
Definition writable (w : world) (filename : string) (document : json) : bool :=
  match disk_open w filename with
  | Some e => export_error e
  | None =>
      match disk_dump w filename document with
      | Some e => export_error e
      | None => true
      end
  end.


(** ** Vocabulary and sample inputs of the further properties *)

(** [k] slashes. *)
Fixpoint slashes (k : nat) : string :=
  match k with
  | O => ""
  | S k' => String "/" (slashes k')
  end.

(** The endpoints the export fetches, in its order. *)
Definition export_endpoints : list string :=
  ["categories"; "models"; "fields"; "statuslabels"; "companies"; "locations";
   "departments"; "suppliers"; "manufacturers"].

(** The requests the specification gives a run that gets to its end: the
    probe; then, in the fixed order of the listings, the request of each
    listing that is selected, which all are under [--all] and when no
    selection flag is given, and otherwise those whose flag is given;
    then the nine of the export under [--export]. *)
Definition requests_of (args : Args) : list string :=
  let c := startup_client args in
  let listed (flag : bool) (k : kind) : list string :=
    if args_all args || no_selection args || flag
    then [api_url c (endpoint_of k)] else [] in
  probe_url args
    :: concat [listed (args_categories args) Categories;
               listed (args_models args) Models;
               listed (args_custom_fields args) Fields;
               listed (args_status_labels args) StatusLabels;
               listed (args_companies args) Companies;
               listed (args_locations args) Locations;
               listed (args_departments args) Departments;
               listed (args_suppliers args) Suppliers;
               listed (args_manufacturers args) Manufacturers;
               if args_export args then map (api_url c) export_endpoints else []].

(** A computation that, from any point after the probe, returns normally
    having sent requests for exactly [urls], in this order. *)
Definition sends (w : world) (m : M unit) (urls : list string) : Prop :=
  forall n, (1 <= n)%nat ->
    exists out n',
      m w n = (out, n', Ok tt)
      /\ (n <= n')%nat
      /\ filter is_HttpGet out = map HttpGet urls.

(** A custom field with four choices. *)
Definition size_field : list (string * json) :=
  [("id", JInt 5); ("name", JStr "Size"); ("format", JStr "ANY");
   ("field_type", JStr "listbox"); ("required", JBool true);
   ("field_values_array", JArr [JStr "S"; JStr "M"; JStr "L"; JStr "XL"])].

Definition sample_company : json :=
  JObj [("id", JInt 1); ("name", JStr "Acme"); ("assets_count", JInt 12)].

(** Sixteen companies, and the same list with a null in the last place. *)
Definition sixteen_companies : list json := repeat sample_company 16.
Definition sixteen_with_null : list json := (repeat sample_company 15 ++ [JNull])%list.

(** A server that has no such endpoint. *)
Definition not_found : http_outcome :=
  Responds {| status_code := 404;
              body := Undecodable (RequestException "Expecting value") |}.

Definition is_FileOpen (e : event) : bool :=
  match e with FileOpen _ => true | _ => false end.

Definition is_ConsolePrint (e : event) : bool :=
  match e with ConsolePrint _ => true | _ => false end.

(* ================================================================== *)
(** * The console: texts that are printed for sure *)
(* ================================================================== *)

Lemma scan_app a : forall b st,
  scan (a ++ b) st = match scan a st with Some st' => scan b st' | None => None end.
Proof.
  induction a as [| c a IH]; intros b st; cbn [append scan]; [reflexivity |].
  destruct (step c st); [apply IH | reflexivity].
Qed.

(** Over a plain text the parser stays outside of tags and leaves the
    open styles as they are. *)
Lemma scan_plain s : forall stack odd,
  plain s = true ->
  scan s (stack, odd, None) = Some (stack, trail odd s, None).
Proof.
  induction s as [| c s IH]; intros stack odd Hp; [reflexivity |].
  cbn [plain] in Hp. apply andb_true_iff in Hp as [Hc Hs].
  cbn [scan trail step]. unfold outside.
  destruct (Ascii.eqb c "[") eqn:Eb.
  - apply Ascii.eqb_eq in Eb. subst c.
    destruct s as [| d s']; [discriminate |].
    apply negb_true_iff in Hc.
    specialize (IH stack false Hs).
    cbn [scan step] in IH |- *. rewrite Hc. exact IH.
  - destruct (Ascii.eqb c "\"); apply IH; assumption.
Qed.

Lemma accepted_plain s : plain s = true -> accepted s = true.
Proof. intros H. unfold accepted. rewrite scan_plain by assumption. reflexivity. Qed.

Lemma plain_app a b : plain a = true -> plain b = true -> plain (a ++ b) = true.
Proof.
  induction a as [| c a IH]; intros Ha Hb; [exact Hb |].
  cbn [plain append] in *. apply andb_true_iff in Ha as [Hc Ha].
  rewrite (IH Ha Hb), andb_true_r.
  destruct (Ascii.eqb c "["); [| reflexivity].
  destruct a; [discriminate | exact Hc].
Qed.

Lemma plain_uint d : plain (NilEmpty.string_of_uint d) = true.
Proof. induction d; cbn [NilEmpty.string_of_uint plain]; try rewrite IHd; reflexivity. Qed.

Lemma plain_str_of_Z z : plain (str_of_Z z) = true.
Proof.
  unfold str_of_Z, NilZero.string_of_int, NilZero.string_of_uint.
  destruct (Z.to_int z) as [d | d]; destruct d;
    try reflexivity; try apply plain_uint;
    cbn [plain]; apply (plain_uint (_ d)) || (cbn; apply plain_uint).
Qed.

Lemma plain_str_of_nat n : plain (str_of_nat n) = true.
Proof. apply plain_str_of_Z. Qed.

Lemma frames_from_1 b stack s odd :
  frames_from [b] stack = true -> plain s = true ->
  scan (s ++ b) (stack, odd, None) <> None.
Proof.
  intros Hf Hs. rewrite scan_app, scan_plain by assumption.
  cbn [frames_from forallb] in Hf.
  destruct (trail odd s);
    [apply andb_true_iff in Hf as [_ Hf]; apply andb_true_iff in Hf as [Hf _]
    | apply andb_true_iff in Hf as [Hf _]];
    destruct (scan b _) as [[[? ?] [? |]] |]; discriminate.
Qed.

(** A line with one plain text between two fixed parts. *)
Lemma accepted_1 a s b :
  frames a [b] = true -> plain s = true -> accepted (a ++ s ++ b) = true.
Proof.
  unfold frames, accepted. intros Hf Hs. rewrite scan_app.
  destruct (scan a _) as [[[stack odd] [tag |]] |]; try discriminate.
  pose proof (frames_from_1 b stack s odd Hf Hs) as H.
  destruct (scan (s ++ b) _); [reflexivity | congruence].
Qed.

Lemma frames_from_2 b c stack s1 s2 odd :
  frames_from [b; c] stack = true -> plain s1 = true -> plain s2 = true ->
  scan (s1 ++ b ++ s2 ++ c) (stack, odd, None) <> None.
Proof.
  intros Hf H1 H2. rewrite scan_app, scan_plain by assumption.
  rewrite scan_app.
  cbn [frames_from forallb] in Hf. rewrite andb_true_r in Hf.
  apply andb_true_iff in Hf as [Hf Ht].
  destruct (trail odd s1).
  - destruct (scan b (stack, true, None)) as [[[stack' odd'] [? |]] |];
      try discriminate.
    apply frames_from_1; [| assumption].
    cbn [frames_from forallb]. exact Ht.
  - destruct (scan b (stack, false, None)) as [[[stack' odd'] [? |]] |];
      try discriminate.
    apply frames_from_1; [| assumption].
    cbn [frames_from forallb]. exact Hf.
Qed.

(** A line with two plain texts between three fixed parts. *)
Lemma accepted_2 a s1 b s2 c :
  frames a [b; c] = true -> plain s1 = true -> plain s2 = true ->
  accepted (a ++ s1 ++ b ++ s2 ++ c) = true.
Proof.
  unfold frames, accepted. intros Hf H1 H2. rewrite scan_app.
  destruct (scan a _) as [[[stack odd] [tag |]] |]; try discriminate.
  pose proof (frames_from_2 b c stack s1 s2 odd Hf H1 H2) as H.
  destruct (scan (s1 ++ _) _); [reflexivity | congruence].
Qed.

Lemma console_print_run text w n :
  accepted text = true -> console_print text w n = ([ConsolePrint text], n, Ok tt).
Proof. intros H. unfold console_print, console_check. rewrite H. reflexivity. Qed.

(** A print adds its line or raises, and sends nothing. *)
Lemma console_print_cases text w n :
  console_print text w n = ([ConsolePrint text], n, Ok tt)
  \/ exists e, console_print text w n = ([], n, Raise e).
Proof. unfold console_print. destruct (console_check text); eauto. Qed.

Lemma console_print_panel_run text title border_style w n :
  accepted title = true -> accepted text = true ->
  console_print_panel text title border_style w n
  = ([ConsolePrintPanel text title border_style], n, Ok tt).
Proof.
  intros Ht Hx. unfold console_print_panel, console_check. rewrite Ht, Hx.
  reflexivity.
Qed.

Lemma first_refused_accepted texts :
  forallb accepted texts = true -> first_refused texts = None.
Proof.
  induction texts as [| text texts IH]; cbn [forallb first_refused]; [reflexivity |].
  intros H. apply andb_true_iff in H as [Ht Hs].
  unfold console_check. rewrite Ht. exact (IH Hs).
Qed.

(** A table is printed when its title, its headers and its cells are
    accepted. *)
Lemma table_texts_accepted t :
  accepted (table_title t) = true ->
  forallb (fun c => accepted (header c)) (table_columns t) = true ->
  Forall (fun row => forallb accepted row = true) (table_rows t) ->
  forallb accepted (table_texts t) = true.
Proof.
  intros Ht Hc Hr. unfold table_texts.
  rewrite forallb_app. cbn [forallb]. rewrite Ht, andb_true_r.
  apply forallb_forall. intros text Hin.
  apply in_concat in Hin as (col & Hcol & Hin).
  apply in_map_iff in Hcol as ([j c] & <- & Hjc).
  cbn [fst snd] in Hin. destruct Hin as [<- | Hin].
  - apply in_combine_r in Hjc.
    exact (proj1 (forallb_forall _ _) Hc c Hjc).
  - apply in_map_iff in Hin as (row & <- & Hrow).
    pose proof (proj1 (Forall_forall _ _) Hr row Hrow) as Hcells.
    destruct (nth_in_or_default j row "") as [Hn | ->]; [| reflexivity].
    exact (proj1 (forallb_forall _ _) Hcells _ Hn).
Qed.

Lemma console_print_table_run t w n :
  forallb accepted (table_texts t) = true ->
  console_print_table t w n = ([ConsolePrintTable t], n, Ok tt).
Proof.
  intros H. unfold console_print_table.
  rewrite (first_refused_accepted _ H). reflexivity.
Qed.

(** The lines of the client, with plain texts in their places. *)
Lemma connection_error_accepted msg :
  plain msg = true ->
  accepted ("[red]Connection error: " ++ msg ++ "[/red]") = true.
Proof. intros H. apply accepted_1; [reflexivity | assumption]. Qed.

Lemma not_found_accepted endpoint :
  plain endpoint = true ->
  accepted ("[yellow]Endpoint " ++ endpoint
              ++ " not found (404) - may not be available in this SnipeIT version[/yellow]")
  = true.
Proof. intros H. apply accepted_1; [reflexivity | assumption]. Qed.

Lemma authentication_error_accepted endpoint :
  plain endpoint = true ->
  accepted ("[red]Authentication error (401) for " ++ endpoint
              ++ " - check your API token[/red]")
  = true.
Proof. intros H. apply accepted_1; [reflexivity | assumption]. Qed.

Lemma access_denied_accepted endpoint :
  plain endpoint = true ->
  accepted ("[red]Access denied (403) for " ++ endpoint
              ++ " - check your token permissions[/red]")
  = true.
Proof. intros H. apply accepted_1; [reflexivity | assumption]. Qed.

Lemma api_error_accepted endpoint code :
  plain endpoint = true ->
  accepted ("[red]API error " ++ endpoint ++ ": " ++ str_of_Z code ++ "[/red]") = true.
Proof.
  intros H. apply accepted_2; [reflexivity | assumption | apply plain_str_of_Z].
Qed.

Lemma request_error_accepted endpoint msg :
  plain endpoint = true -> plain msg = true ->
  accepted ("[red]Request error " ++ endpoint ++ ": " ++ msg ++ "[/red]") = true.
Proof. intros He Hm. apply accepted_2; [reflexivity | assumption | assumption]. Qed.

(* ================================================================== *)
(** * Fetching: [get_api_data] *)
(* ================================================================== *)

Section Fetching.

Variable self : SnipeITClient.
Variable endpoint : string.
Variable w : world.
Variable n : nat.

(** One request goes out.  Then the method returns [fetched] of its
    outcome, with at most one line on the console, or it raises. *)
Lemma get_api_data_cases :
  (exists log,
      get_api_data self endpoint w n
      = (HttpGet (api_url self endpoint) :: log, S n,
         Ok (fetched (net w n (api_url self endpoint))))
      /\ (log = [] \/ exists text, log = [ConsolePrint text]))
  \/ (exists e,
         get_api_data self endpoint w n
         = ([HttpGet (api_url self endpoint)], S n, Raise e)).
Proof.
  unfold get_api_data, try_except, bind, session_get, fetched, api_url, lift, ret,
    response_json, console_print.
  destruct (net w n _) as [e | [code [v | e]]]; cbn [status_code body].
  - destruct e; try (right; eexists; reflexivity).
    destruct (console_check _) as [e' |].
    + right. eexists. reflexivity.
    + left. eexists. split; [reflexivity | right; eexists; reflexivity].
  - destruct (code =? 200)%Z.
    + left. eexists. split; [reflexivity | left; reflexivity].
    + destruct (code =? 404)%Z; [| destruct (code =? 401)%Z; [| destruct (code =? 403)%Z]];
        (destruct (console_check _) as [e' |];
         [ destruct e'; try (right; eexists; reflexivity);
           destruct (console_check _) as [e'' |];
           [ right; eexists; reflexivity
           | left; eexists; split; [reflexivity | right; eexists; reflexivity] ]
         | left; eexists; split; [reflexivity | right; eexists; reflexivity] ]).
  - destruct (code =? 200)%Z.
    + destruct e; try (right; eexists; reflexivity).
      destruct (console_check _) as [e' |].
      * right. eexists. reflexivity.
      * left. eexists. split; [reflexivity | right; eexists; reflexivity].
    + destruct (code =? 404)%Z; [| destruct (code =? 401)%Z; [| destruct (code =? 403)%Z]];
        (destruct (console_check _) as [e' |];
         [ destruct e'; try (right; eexists; reflexivity);
           destruct (console_check _) as [e'' |];
           [ right; eexists; reflexivity
           | left; eexists; split; [reflexivity | right; eexists; reflexivity] ]
         | left; eexists; split; [reflexivity | right; eexists; reflexivity] ]).
Qed.

Lemma get_api_data_200 (v : json) :
  net w n (api_url self endpoint) = ok_200 v ->
  get_api_data self endpoint w n = ([HttpGet (api_url self endpoint)], S n, Ok v).
Proof.
  intros H. unfold get_api_data, try_except, bind, session_get.
  fold (api_url self endpoint). rewrite H. reflexivity.
Qed.

(** C5, as amended.  [get_api_data] returns the parsed body, printing
    nothing, when the status is 200 and the body is JSON.  It returns
    [None] after one printed line when the status is not 200, and when
    the request, or the decoding of a 200 body, raises a
    [RequestException]; this for an endpoint name and an exception text
    that hold no markup.  Nothing is said of the other exceptions. *)
Theorem get_api_data_outcome :
  plain endpoint = true ->
  let url := api_url self endpoint in
  match net w n url with
  | Responds {| status_code := code; body := payload |} =>
      if (code =? 200)%Z
      then
        match payload with
        | Json v => get_api_data self endpoint w n = ([HttpGet url], S n, Ok v)
        | Undecodable e =>
            request_error e = true ->
            exists text,
              get_api_data self endpoint w n
              = ([HttpGet url; ConsolePrint text], S n, Ok JNull)
        end
      else
        exists text,
          get_api_data self endpoint w n
          = ([HttpGet url; ConsolePrint text], S n, Ok JNull)
  | Raises e =>
      request_error e = true ->
      exists text,
        get_api_data self endpoint w n
        = ([HttpGet url; ConsolePrint text], S n, Ok JNull)
  end.
Proof.
  intros Hep url. subst url.
  unfold get_api_data, try_except, bind, session_get, api_url, lift, ret, response_json.
  destruct (net w n _) as [e | [code [v | e]]]; cbn [status_code body].
  - destruct e; try discriminate. cbn [request_error]. intros Hmsg.
    rewrite console_print_run by (apply request_error_accepted; assumption).
    eexists. reflexivity.
  - destruct (code =? 200)%Z; [reflexivity |].
    destruct (code =? 404)%Z; [| destruct (code =? 401)%Z; [| destruct (code =? 403)%Z]];
      rewrite console_print_run
        by auto using not_found_accepted, authentication_error_accepted,
             access_denied_accepted, api_error_accepted;
      eexists; reflexivity.
  - destruct (code =? 200)%Z.
    + destruct e; try discriminate. cbn [request_error]. intros Hmsg.
      rewrite console_print_run by (apply request_error_accepted; assumption).
      eexists. reflexivity.
    + destruct (code =? 404)%Z; [| destruct (code =? 401)%Z; [| destruct (code =? 403)%Z]];
        rewrite console_print_run
          by auto using not_found_accepted, authentication_error_accepted,
               access_denied_accepted, api_error_accepted;
        eexists; reflexivity.
Qed.

(** On an outcome it answers, the method returns [fetched] of it. *)
Lemma get_api_data_run :
  plain endpoint = true ->
  answers (net w n (api_url self endpoint)) = true ->
  exists log,
    get_api_data self endpoint w n
    = (HttpGet (api_url self endpoint) :: log, S n,
       Ok (fetched (net w n (api_url self endpoint))))
    /\ (log = [] \/ exists text, log = [ConsolePrint text]).
Proof.
  intros Hep Hans. pose proof (get_api_data_outcome Hep) as H. cbv zeta in H.
  unfold answers, fetched in *.
  destruct (net w n _) as [e | [code [v | e]]]; cbn [status_code body] in *.
  - destruct (H Hans) as [text ->]. eexists. split; [reflexivity | right; eauto].
  - destruct (code =? 200)%Z.
    + rewrite H. eexists. split; [reflexivity | left; reflexivity].
    + destruct H as [text ->]. eexists. split; [reflexivity | right; eauto].
  - destruct (code =? 200)%Z.
    + destruct (H Hans) as [text ->]. eexists. split; [reflexivity | right; eauto].
    + destruct H as [text ->]. eexists. split; [reflexivity | right; eauto].
Qed.

End Fetching.

(** A 200 whose body is not JSON: the decoding error is caught like a
    network error, and the caller gets [None]. *)
Example get_api_data_html_page :
  get_api_data sample_client "models" (constant_world html_page) 0
  = ([HttpGet "https://snipe.example.com/api/v1/models";
      ConsolePrint ("[red]Request error models: "
                      ++ "Expecting value: line 1 column 1 (char 0)[/red]")],
     1%nat, Ok JNull).
Proof. reflexivity. Qed.

(** An exception of another class than [RequestException] goes through
    [get_api_data] to its caller. *)
Example get_api_data_digit_limit :
  get_api_data sample_client "models"
    (constant_world
       (Responds {| status_code := 200;
                    body := Undecodable
                              (ValueError "Exceeds the limit (4300 digits) for integer string conversion") |}))
    0
  = ([HttpGet "https://snipe.example.com/api/v1/models"], 1%nat,
     Raise (ValueError "Exceeds the limit (4300 digits) for integer string conversion")).
Proof. reflexivity. Qed.

(* ================================================================== *)
(** * Listing: rows, caps and notices *)
(* ================================================================== *)

Lemma truthy_with_rows fields v :
  lookup "rows" fields = Some v -> truthy (JObj fields) = true.
Proof. destruct fields; [discriminate | reflexivity]. Qed.

Lemma truthy_fields fields : fields <> [] -> truthy (JObj fields) = true.
Proof. destruct fields; [congruence | reflexivity]. Qed.

(** The loop of a lister adds one table row per record, as long as every
    record is shown; the cells it adds are accepted by the console. *)
Lemma for_each_rows (row : json -> result (list json)) items :
  forallb (fun r => match (cells <~ row r ;; renderables cells) with
                    | Ok texts => forallb accepted texts
                    | Raise _ => false
                    end) items = true ->
  forall t,
    Forall (fun cells => forallb accepted cells = true) (table_rows t) ->
    exists t',
      for_each items (fun r t => cells <~ row r ;; add_row cells t) t = Ok t'
      /\ table_title t' = table_title t
      /\ table_columns t' = table_columns t
      /\ List.length (table_rows t')
         = (List.length (table_rows t) + List.length items)%nat
      /\ Forall (fun cells => forallb accepted cells = true) (table_rows t').
Proof.
  induction items as [| r items IH]; intros Hall t Ht; cbn in *.
  - exists t. repeat split; [lia | assumption].
  - apply andb_true_iff in Hall as [Hr Hrest].
    unfold add_row at 1.
    destruct (row r) as [cells | e]; cbn in *; [| discriminate].
    destruct (renderables cells) as [ss | e]; cbn in *; [| discriminate].
    destruct (IH Hrest {| table_title := table_title t;
                          table_columns := table_columns t;
                          table_rows := (table_rows t ++ [ss])%list |})
      as (t' & Heq & Htitle & Hc & Hl & Hcells).
    { cbn. apply Forall_app. split; [assumption |].
      apply Forall_cons; [assumption | apply Forall_nil]. }
    exists t'. cbn in *. rewrite Heq. repeat split; try assumption.
    rewrite Hl, length_app. cbn. lia.
Qed.

(** Open the lister of a kind, up to its first print. *)
Ltac open_lister :=
  cbn [lister_of endpoint_of cap_of noun_of row_of] in *;
  cbv beta iota zeta
    delta [list_asset_types list_models list_custom_fields list_status_labels
           list_companies list_locations list_departments list_suppliers
           list_manufacturers bind when lift ret].

(** Let a fixed line through. *)
Ltac print_line :=
  rewrite console_print_run by reflexivity; cbv beta iota.

(** Run the lister of a kind on the truthy body of a 200 response. *)
Ltac enter_lister Hnet Ht :=
  open_lister; print_line;
  rewrite (get_api_data_200 _ _ _ _ _ Hnet); cbv beta iota;
  rewrite Ht; cbn [negb].

(** The run of a lister on a 200 response whose records are shown. *)
Lemma lister_shows_rows k self w n fields rows :
  net w n (api_url (client self) (endpoint_of k)) = ok_200 (JObj fields) ->
  lookup "rows" fields = Some (JArr rows) ->
  forallb (shows k)
    (match cap_of k with Some c => firstn c rows | None => rows end) = true ->
  let R := List.length rows in
  let notice :=
    match cap_of k with
    | Some c =>
        if (c <? R)%nat
        then [ConsolePrint ("[yellow]... and " ++ str_of_nat (R - c) ++ " other "
                              ++ noun_of k ++ "[/yellow]")]
        else []
    | None => []
    end in
  exists heading t,
    lister_of k self w n
    = ((ConsolePrint heading
          :: HttpGet (api_url (client self) (endpoint_of k))
          :: notice ++ [ConsolePrintTable t])%list,
       S n, Ok tt)
    /\ List.length (table_rows t)
       = match cap_of k with Some c => Nat.min R c | None => R end.
Proof.
  intros Hnet Hrows Hall R notice. subst R notice.
  pose proof (truthy_with_rows _ _ Hrows) as Ht.
  destruct k; enter_lister Hnet Ht; unfold py_get, dict_get; rewrite Hrows;
    cbn [rbind py_iter py_slice_to py_len];
    match goal with
    | |- context [for_each ?items (fun r t => cells <~ ?row r ;; add_row cells t) ?t0] =>
        destruct (for_each_rows row items Hall t0 (Forall_nil _))
          as (t' & Heq & Htitle & Hcols & Hlen & Hcells);
        rewrite Heq
    end;
    cbv beta iota;
    try (destruct (_ <? List.length rows)%nat;
         [rewrite console_print_run
            by (apply accepted_1; [reflexivity | apply plain_str_of_nat]);
          cbv beta iota |]);
    (rewrite console_print_table_run
       by (apply table_texts_accepted;
           [rewrite Htitle | rewrite Hcols |]; first [reflexivity | assumption]));
    cbn [app fst snd];
    do 2 eexists; (split; [reflexivity |]);
    rewrite Hlen; cbn [List.length table_rows add_column new_Table];
    rewrite ?length_firstn; lia.
Qed.

(** C4.  A 200 response carries [R] records under [rows], and those the
    lister shows are shown: their cells can be computed, [add_row] takes
    them and the console accepts them.  Then the lister prints a table of
    [min R C] rows when its kind has the cap [C], of [R] rows when it has
    none; and it prints the overflow notice, with the number [R - C],
    exactly when the kind has a cap and [R > C]. *)
Theorem listing_row_count k self w n fields rows :
  net w n (api_url (client self) (endpoint_of k)) = ok_200 (JObj fields) ->
  lookup "rows" fields = Some (JArr rows) ->
  forallb (shows k)
    (match cap_of k with Some c => firstn c rows | None => rows end) = true ->
  let R := List.length rows in
  let notice :=
    match cap_of k with
    | Some c =>
        if (c <? R)%nat
        then [ConsolePrint ("[yellow]... and " ++ str_of_nat (R - c) ++ " other "
                              ++ noun_of k ++ "[/yellow]")]
        else []
    | None => []
    end in
  exists heading t,
    lister_of k self w n
    = ((ConsolePrint heading
          :: HttpGet (api_url (client self) (endpoint_of k))
          :: notice ++ [ConsolePrintTable t])%list,
       S n, Ok tt)
    /\ List.length (table_rows t)
       = match cap_of k with Some c => Nat.min R c | None => R end.
Proof. exact (lister_shows_rows k self w n fields rows). Qed.



(** A truthy object whose [rows] are absent or empty gives the table of
    its kind with no row, whatever else the object holds. *)
Lemma lister_no_rows k self :
  exists heading t,
    table_rows t = []
    /\ forall w n fields,
        truthy (JObj fields) = true ->
        lookup "rows" fields = None \/ lookup "rows" fields = Some (JArr []) ->
        net w n (api_url (client self) (endpoint_of k)) = ok_200 (JObj fields) ->
        lister_of k self w n
        = ([ConsolePrint heading;
            HttpGet (api_url (client self) (endpoint_of k));
            ConsolePrintTable t], S n, Ok tt).
Proof.
  destruct k; do 2 eexists; (split; [| intros w n fields Ht Hrows Hnet]);
    try (enter_lister Hnet Ht; unfold py_get, dict_get;
         destruct Hrows as [Hrows | Hrows]; rewrite Hrows; reflexivity);
    reflexivity.
Qed.

(** A falsy value from the fetch ends the lister after its notice: no
    table is printed. *)
Lemma lister_not_retrieved k self w n log n' data :
  get_api_data (client self) (endpoint_of k) w n = (log, n', Ok data) ->
  truthy data = false ->
  exists heading notices,
    lister_of k self w n
    = ((ConsolePrint heading :: log ++ notices)%list, n', Ok tt)
    /\ notices <> []
    /\ forallb is_ConsolePrint notices = true.
Proof.
  intros Hget Hf.
  destruct k; open_lister; print_line; rewrite Hget; cbv beta iota;
    rewrite Hf; cbn [negb]; repeat print_line;
    do 2 eexists; (split; [reflexivity |]); (split; [discriminate | reflexivity]).
Qed.

(** C3, as amended.  For each of the nine listings, a 200 response whose
    body is an object with at least one key and no [rows] key makes the
    lister return normally after printing its heading and a table with no
    row, exactly as it does when the same object also has [rows] set to
    the empty list. *)
Theorem listing_without_rows k self w n fields :
  fields <> [] ->
  lookup "rows" fields = None ->
  net w n (api_url (client self) (endpoint_of k)) = ok_200 (JObj fields) ->
  exists heading t,
    lister_of k self w n
    = ([ConsolePrint heading;
        HttpGet (api_url (client self) (endpoint_of k));
        ConsolePrintTable t], S n, Ok tt)
    /\ table_rows t = []
    /\ forall w',
        net w' n (api_url (client self) (endpoint_of k))
        = ok_200 (JObj (("rows", JArr []) :: fields)) ->
        lister_of k self w' n = lister_of k self w n.
Proof.
  intros Hne Hrows Hnet.
  destruct (lister_no_rows k self) as (heading & t & Hempty & Hrun).
  exists heading, t.
  pose proof (Hrun w n fields (truthy_fields _ Hne) (or_introl Hrows) Hnet) as Hhere.
  repeat split; try assumption.
  intros w' Hnet'.
  rewrite Hhere.
  apply (Hrun w' n (("rows", JArr []) :: fields)); auto.
Qed.

(* ================================================================== *)
(** * Records: nested objects and nullable fields *)
(* ================================================================== *)

Section Records.

Variable fields : list (string * json).

(** [list_locations] and [list_departments] test the nested object before
    they call [.get] on it: a null [parent], [company] or [manager] gives
    the empty name. *)
Lemma location_row_null_parent :
  lookup "parent" fields = Some JNull ->
  location_row (JObj fields)
  = (address_display <~ address_display (dict_get fields "address" (JStr "")) ;;
     Ok [JStr (py_str (dict_get fields "id" (JStr "")));
         dict_get fields "name" (JStr "");
         JStr "";
         JStr (py_str (dict_get fields "assets_count" (JInt 0)));
         address_display]).
Proof.
  intros H. unfold location_row, str_get, py_get. cbn [rbind].
  unfold dict_get. rewrite H. reflexivity.
Qed.

Lemma department_row_null_company_manager :
  lookup "company" fields = Some JNull ->
  lookup "manager" fields = Some JNull ->
  department_row (JObj fields)
  = Ok [JStr (py_str (dict_get fields "id" (JStr "")));
        dict_get fields "name" (JStr "");
        JStr "";
        JStr "";
        JStr (py_str (dict_get fields "users_count" (JInt 0)))].
Proof.
  intros Hc Hm. unfold department_row, str_get, py_get. cbn [rbind].
  unfold dict_get. rewrite Hc, Hm. reflexivity.
Qed.

(** [list_models] calls [.get] on whatever the record holds: the default
    [{}] only stands in for a missing key, not for a null value. *)
Lemma model_row_null_category :
  lookup "category" fields = Some JNull ->
  model_row (JObj fields) = Raise no_get_on_None.
Proof.
  intros H. unfold model_row, str_get, py_get. cbn [rbind].
  unfold dict_get. rewrite H. reflexivity.
Qed.

Lemma model_row_null_manufacturer :
  lookup "category" fields = None ->
  lookup "manufacturer" fields = Some JNull ->
  model_row (JObj fields) = Raise no_get_on_None.
Proof.
  intros Hc Hm. unfold model_row, str_get, py_get. cbn [rbind].
  unfold dict_get. rewrite Hc, Hm. reflexivity.
Qed.

(** The same call chain reads [pivot] in [list_status_labels]. *)
Lemma status_row_absent_pivot :
  lookup "pivot" fields = None ->
  exists color_display,
    status_row (JObj fields)
    = Ok [JStr (py_str (dict_get fields "id" (JStr "")));
          dict_get fields "name" (JStr "");
          dict_get fields "type" (JStr "");
          JStr color_display;
          JStr "0"].
Proof.
  intros H. unfold status_row, str_get, py_get. cbn [rbind].
  unfold dict_get. rewrite H. eexists. reflexivity.
Qed.

Lemma status_row_null_pivot :
  lookup "pivot" fields = Some JNull ->
  status_row (JObj fields) = Raise no_get_on_None.
Proof.
  intros H. unfold status_row, str_get, py_get. cbn [rbind].
  unfold dict_get. rewrite H. reflexivity.
Qed.

End Records.

(** C1, at the failing input.  The models endpoint answers with a
    record whose [category] is null: [list_models] raises
    [AttributeError] instead of showing an empty name, nothing catches
    it, and the run ends with exit status 1. *)
Theorem list_models_null_category :
  list_models sample_lister (constant_world (ok_200 models_with_null_category)) 0
  = ([ConsolePrint (nl ++ "[bold cyan]🔧 Models[/bold cyan]");
      HttpGet "https://snipe.example.com/api/v1/models"],
     1%nat, Raise no_get_on_None)
  /\ exit_code
       (outcome_of (run (plain_args "https://snipe.example.com" "token")
                      (constant_world (ok_200 models_with_null_category))))
     = 1%Z.
Proof. split; reflexivity. Qed.

(** C9, at the failing input.  The status labels endpoint answers with
    a record whose [pivot] is null: [list_status_labels] raises
    [AttributeError] instead of showing the record. *)
Theorem list_status_labels_null_pivot :
  list_status_labels sample_lister
    (constant_world (ok_200 statuslabels_with_null_pivot)) 0
  = ([ConsolePrint (nl ++ "[bold cyan]🏷️ Status Labels[/bold cyan]");
      HttpGet "https://snipe.example.com/api/v1/statuslabels"],
     1%nat, Raise no_get_on_None).
Proof. reflexivity. Qed.

(* ================================================================== *)
(** * Truncation of [address] and [url] *)
(* ================================================================== *)

Section Truncation.

Lemma str_len_take n s : str_len (str_take n s) = Nat.min n (str_len s).
Proof.
  revert n. induction s as [| c s IH]; intros n; cbn [str_take str_len].
  - rewrite Nat.min_0_r. reflexivity.
  - destruct (is_continuation c) eqn:Ec.
    + cbn [str_len]. rewrite Ec. apply IH.
    + destruct n as [| n]; [reflexivity |].
      cbn [str_len]. rewrite Ec, IH. reflexivity.
Qed.

Lemma prefix_str_take n s : prefix (str_take n s) s = true.
Proof.
  revert n. induction s as [| c s IH]; intros n; cbn [str_take]; [reflexivity |].
  destruct (is_continuation c).
  - cbn [prefix]. destruct (ascii_dec c c); [apply IH | congruence].
  - destruct n as [| n]; [reflexivity |].
    cbn [prefix]. destruct (ascii_dec c c); [apply IH | congruence].
Qed.




(** Thirty characters of which one takes two bytes, and fifteen that
    take three bytes each: both are shown whole. *)
Example address_display_accents :
  str_len rue_of_30 = 30%nat
  /\ address_display (JStr rue_of_30) = Ok (JStr rue_of_30)
  /\ str_len street_of_tokyo = 15%nat
  /\ address_display (JStr street_of_tokyo) = Ok (JStr street_of_tokyo).
Proof. repeat split. Qed.

End Truncation.

(* ================================================================== *)
(** * Export *)
(* ================================================================== *)

Lemma bind_Ok {A B} (m : M A) (k : A -> M B) w n out n' a :
  m w n = (out, n', Ok a) ->
  bind m k w n = (let '(out', n'', r) := k a w n' in ((out ++ out')%list, n'', r)).
Proof. intros H. unfold bind. rewrite H. reflexivity. Qed.

Lemma bind_Raise {A B} (m : M A) (k : A -> M B) w n out n' e :
  m w n = (out, n', Raise e) ->
  bind m k w n = (out, n', Raise e).
Proof. intros H. unfold bind. rewrite H. reflexivity. Qed.

Lemma no_dump_in_log (log : list event) :
  log = [] \/ (exists text, log = [ConsolePrint text]) ->
  filter is_JsonDump log = [].
Proof. intros [-> | [text ->]]; reflexivity. Qed.

Lemma no_open_in_log (log : list event) :
  log = [] \/ (exists text, log = [ConsolePrint text]) ->
  filter is_FileOpen log = [].
Proof. intros [-> | [text ->]]; reflexivity. Qed.

Lemma no_get_in_log (log : list event) :
  log = [] \/ (exists text, log = [ConsolePrint text]) ->
  filter is_HttpGet log = [].
Proof. intros [-> | [text ->]]; reflexivity. Qed.

(** What a computation writes when its first part writes nothing. *)
Lemma dumps_bind_Ok {A B} (m : M A) (k : A -> M B) w n out n' a :
  m w n = (out, n', Ok a) ->
  filter is_JsonDump out = [] ->
  filter is_JsonDump (events_of (bind m k w n))
  = filter is_JsonDump (events_of (k a w n')).
Proof.
  intros H Hq. rewrite (bind_Ok _ _ _ _ _ _ _ H).
  destruct (k a w n') as [[out' n''] r]. unfold events_of. cbn [fst].
  rewrite filter_app, Hq. reflexivity.
Qed.

Lemma dumps_bind_Raise {A B} (m : M A) (k : A -> M B) w n out n' e :
  m w n = (out, n', Raise e) ->
  filter is_JsonDump out = [] ->
  filter is_JsonDump (events_of (bind m k w n)) = [].
Proof. intros H Hq. rewrite (bind_Raise _ _ _ _ _ _ _ H). exact Hq. Qed.

Lemma get_api_data_dumps self endpoint w n :
  (exists out,
      get_api_data self endpoint w n
      = (out, S n, Ok (fetched (net w n (api_url self endpoint))))
      /\ filter is_JsonDump out = [])
  \/ (exists out e,
         get_api_data self endpoint w n = (out, S n, Raise e)
         /\ filter is_JsonDump out = []).
Proof.
  destruct (get_api_data_cases self endpoint w n) as [(log & E & Hlog) | (e & E)].
  - left. eexists. split; [exact E |].
    cbn [filter is_JsonDump]. apply no_dump_in_log, Hlog.
  - right. do 2 eexists. split; [exact E | reflexivity].
Qed.

Lemma success_accepted filename :
  plain filename = true ->
  accepted ("[green]Configuration exported successfully to " ++ filename ++ "[/green]")
  = true.
Proof. intros H. apply accepted_1; [reflexivity | assumption]. Qed.

Lemma export_heading_accepted filename :
  plain filename = true ->
  accepted (nl ++ "[bold cyan]💾 Exporting configuration to " ++ filename
              ++ "[/bold cyan]")
  = true.
Proof.
  intros H.
  apply (accepted_1 (nl ++ "[bold cyan]💾 Exporting configuration to ") filename
           "[/bold cyan]");
    [reflexivity | assumption].
Qed.

Lemma export_error_accepted e :
  export_error e = true ->
  accepted ("[red]Error during export: " ++ exn_str e ++ "[/red]") = true.
Proof.
  intros H. apply accepted_1; [reflexivity |].
  destruct e; try exact H. discriminate H.
Qed.

Section Exporting.

Variable self : SnipeITSettingsLister.
Variable filename : string.
Variable w : world.
Variable n : nat.

(** The [try] of the export writes at most the document it is given, and
    sends nothing. *)
Lemma export_write_events config m :
  exists out r,
    export_write filename config w m = (out, m, r)
    /\ filter is_HttpGet out = []
    /\ (filter is_JsonDump out = []
        \/ filter is_JsonDump out = [JsonDump filename config]).
Proof.
  unfold export_write, try_except, bind, write_json, console_print.
  destruct (disk_open w filename) as [e |].
  - destruct e; try (do 2 eexists; split; [reflexivity | split; [| left]; reflexivity]);
      destruct (console_check _);
      do 2 eexists; (split; [reflexivity | split; [| left]; reflexivity]).
  - destruct (disk_dump w filename config) as [e |].
    + destruct e; try (do 2 eexists; split; [reflexivity | split; [| left]; reflexivity]);
        destruct (console_check _);
        do 2 eexists; (split; [reflexivity | split; [| left]; reflexivity]).
    + destruct (console_check _) as [e |].
      * destruct e;
          try (do 2 eexists; split; [reflexivity | split; [| right]; reflexivity]);
          destruct (console_check _);
          do 2 eexists; (split; [reflexivity | split; [| right]; reflexivity]).
      * do 2 eexists. split; [reflexivity | split; [| right]; reflexivity].
Qed.

(** What the [try] of the export ends in, for a file name without
    markup. *)
Lemma export_write_run config m :
  plain filename = true ->
  match disk_open w filename with
  | Some e =>
      export_error e = true ->
      export_write filename config w m
      = ([ConsolePrint ("[red]Error during export: " ++ exn_str e ++ "[/red]")],
         m, Ok tt)
  | None =>
      match disk_dump w filename config with
      | Some e =>
          export_error e = true ->
          export_write filename config w m
          = ([FileOpen filename;
              ConsolePrint ("[red]Error during export: " ++ exn_str e ++ "[/red]")],
             m, Ok tt)
      | None =>
          export_write filename config w m
          = ([FileOpen filename; JsonDump filename config;
              ConsolePrint ("[green]Configuration exported successfully to "
                              ++ filename ++ "[/green]")],
             m, Ok tt)
      end
  end.
Proof.
  intros Hf. unfold export_write, try_except, bind, write_json.
  destruct (disk_open w filename) as [e |].
  - intros He. pose proof (export_error_accepted _ He) as Hacc.
    destruct e; try discriminate He; cbv beta iota;
      rewrite (console_print_run _ _ _ Hacc); reflexivity.
  - destruct (disk_dump w filename config) as [e |].
    + intros He. pose proof (export_error_accepted _ He) as Hacc.
      destruct e; try discriminate He; cbv beta iota;
        rewrite (console_print_run _ _ _ Hacc); reflexivity.
    + rewrite console_print_run by (apply success_accepted, Hf). reflexivity.
Qed.

(** Whatever happens, the export writes nothing or the document built
    from what its nine fetches returned. *)
Lemma export_config_dumps :
  filter is_JsonDump (events_of (export_config self filename w n)) = []
  \/ filter is_JsonDump (events_of (export_config self filename w n))
     = [JsonDump filename (export_document self w n)].
Proof.
  unfold export_config, export_document, fetched_at.
  match goal with
  | |- context [bind (console_print ?text) ?k w n] =>
      destruct (console_print_cases text w n) as [E | [e E]];
      [ rewrite (dumps_bind_Ok _ _ _ _ _ _ _ E eq_refl)
      | rewrite (dumps_bind_Raise _ _ _ _ _ _ _ E eq_refl); left; reflexivity ]
  end.
  do 9 (match goal with
        | |- context [bind (get_api_data ?c ?ep) ?k w ?m] =>
            destruct (get_api_data_dumps c ep w m)
              as [(out & E' & Hq) | (out & e & E' & Hq)];
            [ rewrite (dumps_bind_Ok _ _ _ _ _ _ _ E' Hq); clear E' Hq out
            | rewrite (dumps_bind_Raise _ _ _ _ _ _ _ E' Hq); left; reflexivity ]
        end).
  match goal with
  | |- context [try_except ?body ?handler w ?m] =>
      change (try_except body handler) with (export_write filename
        (JObj [("server_url", JStr (server_url (client self)));
               ("timestamp", JNull);
               ("categories", fetched (net w n (api_url (client self) "categories")));
               ("models", fetched (net w (1 + n) (api_url (client self) "models")));
               ("fields", fetched (net w (2 + n) (api_url (client self) "fields")));
               ("statuslabels",
                fetched (net w (3 + n) (api_url (client self) "statuslabels")));
               ("companies", fetched (net w (4 + n) (api_url (client self) "companies")));
               ("locations", fetched (net w (5 + n) (api_url (client self) "locations")));
               ("departments",
                fetched (net w (6 + n) (api_url (client self) "departments")));
               ("suppliers", fetched (net w (7 + n) (api_url (client self) "suppliers")));
               ("manufacturers",
                fetched (net w (8 + n) (api_url (client self) "manufacturers")))]));
      match goal with
      | |- context [export_write filename ?config w m] =>
          destruct (export_write_events config m) as (out & r & -> & _ & Hd)
      end
  end.
  exact Hd.
Qed.

Hypothesis filename_plain : plain filename = true.
Hypothesis fetches_answered :
  forall i endpoint,
    nth_error export_endpoints i = Some endpoint ->
    answers (net w (i + n) (api_url (client self) endpoint)) = true.

(** The run of the export up to its [try], for a file name without
    markup and nine fetches that are answered: the heading, then the nine
    requests, each followed by at most one line. *)
Lemma export_config_run :
  exists log,
    export_config self filename w n
    = (let '(out, n', r) :=
         export_write filename (export_document self w n) w (9 + n)%nat in
       ((log ++ out)%list, n', r))
    /\ filter is_HttpGet log
       = map HttpGet (map (api_url (client self)) export_endpoints)
    /\ filter is_JsonDump log = []
    /\ filter is_FileOpen log = [].
Proof.
  destruct (get_api_data_run (client self) "categories" w n eq_refl
              (fetches_answered 0 _ eq_refl)) as (l1 & E1 & L1).
  destruct (get_api_data_run (client self) "models" w (1 + n) eq_refl
              (fetches_answered 1 _ eq_refl)) as (l2 & E2 & L2).
  destruct (get_api_data_run (client self) "fields" w (2 + n) eq_refl
              (fetches_answered 2 _ eq_refl)) as (l3 & E3 & L3).
  destruct (get_api_data_run (client self) "statuslabels" w (3 + n) eq_refl
              (fetches_answered 3 _ eq_refl)) as (l4 & E4 & L4).
  destruct (get_api_data_run (client self) "companies" w (4 + n) eq_refl
              (fetches_answered 4 _ eq_refl)) as (l5 & E5 & L5).
  destruct (get_api_data_run (client self) "locations" w (5 + n) eq_refl
              (fetches_answered 5 _ eq_refl)) as (l6 & E6 & L6).
  destruct (get_api_data_run (client self) "departments" w (6 + n) eq_refl
              (fetches_answered 6 _ eq_refl)) as (l7 & E7 & L7).
  destruct (get_api_data_run (client self) "suppliers" w (7 + n) eq_refl
              (fetches_answered 7 _ eq_refl)) as (l8 & E8 & L8).
  destruct (get_api_data_run (client self) "manufacturers" w (8 + n) eq_refl
              (fetches_answered 8 _ eq_refl)) as (l9 & E9 & L9).
  exists (ConsolePrint (nl ++ "[bold cyan]💾 Exporting configuration to " ++ filename
                          ++ "[/bold cyan]")
            :: HttpGet (api_url (client self) "categories") :: l1
            ++ HttpGet (api_url (client self) "models") :: l2
            ++ HttpGet (api_url (client self) "fields") :: l3
            ++ HttpGet (api_url (client self) "statuslabels") :: l4
            ++ HttpGet (api_url (client self) "companies") :: l5
            ++ HttpGet (api_url (client self) "locations") :: l6
            ++ HttpGet (api_url (client self) "departments") :: l7
            ++ HttpGet (api_url (client self) "suppliers") :: l8
            ++ HttpGet (api_url (client self) "manufacturers") :: l9)%list.
  split; [| split; [| split]].
  - unfold export_document, fetched_at, export_write. cbn [Nat.add] in *.
    cbv beta iota zeta delta [export_config bind].
    rewrite (console_print_run _ _ _ (export_heading_accepted _ filename_plain)).
    cbv beta iota.
    rewrite E1; cbv beta iota. rewrite E2; cbv beta iota. rewrite E3; cbv beta iota.
    rewrite E4; cbv beta iota. rewrite E5; cbv beta iota. rewrite E6; cbv beta iota.
    rewrite E7; cbv beta iota. rewrite E8; cbv beta iota. rewrite E9; cbv beta iota.
    match goal with
    | |- context [try_except ?body ?handler w ?m] =>
        destruct (try_except body handler w m) as [[out n'] r]
    end.
    f_equal. f_equal.
    cbn [app]. repeat (rewrite <- ?app_assoc; cbn [app]). reflexivity.
  - apply no_get_in_log in L1, L2, L3, L4, L5, L6, L7, L8, L9.
    cbn [filter is_HttpGet app map export_endpoints].
    repeat (rewrite ?filter_app; cbn [filter is_HttpGet app]).
    rewrite L1, L2, L3, L4, L5, L6, L7, L8, L9. reflexivity.
  - apply no_dump_in_log in L1, L2, L3, L4, L5, L6, L7, L8, L9.
    cbn [filter is_JsonDump app].
    repeat (rewrite ?filter_app; cbn [filter is_JsonDump app]).
    rewrite L1, L2, L3, L4, L5, L6, L7, L8, L9. reflexivity.
  - apply no_open_in_log in L1, L2, L3, L4, L5, L6, L7, L8, L9.
    cbn [filter is_FileOpen app].
    repeat (rewrite ?filter_app; cbn [filter is_FileOpen app]).
    rewrite L1, L2, L3, L4, L5, L6, L7, L8, L9. reflexivity.
Qed.

End Exporting.

Section ExportDocument.

Variable self : SnipeITSettingsLister.
Variable filename : string.
Variable w : world.
Variable n : nat.

(** C2, as amended.  Every document the export writes goes to the
    export file and is an object whose keys are [server_url], [timestamp]
    and the nine resource kinds, in this order and with no other key;
    [server_url] holds a string and each resource key holds what its
    fetch returned: the parsed body of a 200 response, null for a fetch
    that failed.  The value under [timestamp] is left open.  And one such
    document is written when the file name holds no markup, the nine
    fetches are answered and the disk takes the file. *)
Theorem export_config_document :
  (forall name document,
      In (JsonDump name document) (events_of (export_config self filename w n)) ->
      name = filename
      /\ exists timestamp,
          document
          = JObj [("server_url", JStr (server_url (client self)));
                  ("timestamp", timestamp);
                  ("categories", fetched_at self w n 0 "categories");
                  ("models", fetched_at self w n 1 "models");
                  ("fields", fetched_at self w n 2 "fields");
                  ("statuslabels", fetched_at self w n 3 "statuslabels");
                  ("companies", fetched_at self w n 4 "companies");
                  ("locations", fetched_at self w n 5 "locations");
                  ("departments", fetched_at self w n 6 "departments");
                  ("suppliers", fetched_at self w n 7 "suppliers");
                  ("manufacturers", fetched_at self w n 8 "manufacturers")])
  /\ (plain filename = true ->
      (forall i endpoint,
          nth_error export_endpoints i = Some endpoint ->
          answers (net w (i + n) (api_url (client self) endpoint)) = true) ->
      disk_open w filename = None ->
      (forall document, disk_dump w filename document = None) ->
      exists document,
        filter is_JsonDump (events_of (export_config self filename w n))
        = [JsonDump filename document]).
Proof.
  split.
  - intros name document Hin.
    assert (Hf : In (JsonDump name document)
                   (filter is_JsonDump (events_of (export_config self filename w n)))).
    { apply filter_In. split; [exact Hin | reflexivity]. }
    destruct (export_config_dumps self filename w n) as [H | H]; rewrite H in Hf.
    + destruct Hf.
    + destruct Hf as [Hf | []]. injection Hf as <- <-.
      split; [reflexivity |]. exists JNull. reflexivity.
  - intros Hplain Hans Hopen Hdump.
    destruct (export_config_run self filename w n Hplain Hans) as (log & E & _ & Hd & _).
    pose proof (export_write_run filename w (export_document self w n) (9 + n) Hplain)
      as Hw.
    rewrite Hopen, Hdump in Hw. rewrite E, Hw.
    eexists. unfold events_of. cbn [fst].
    rewrite filter_app, Hd. reflexivity.
Qed.

End ExportDocument.

(* ================================================================== *)
(** * The run of [main] *)
(* ================================================================== *)

Lemma plain_endpoint_of k : plain (endpoint_of k) = true.
Proof. destruct k; reflexivity. Qed.

Lemma prints_no_get (log : list event) :
  forallb is_ConsolePrint log = true -> filter is_HttpGet log = [].
Proof.
  induction log as [| e log IH]; [reflexivity |].
  cbn [forallb filter]. intros H. apply andb_true_iff in H as [He Hlog].
  destruct e; try discriminate He. exact (IH Hlog).
Qed.

(** The banner, for a base URL and a token prefix without markup. *)
Lemma display_server_info_run self w n :
  plain (server_url (client self)) = true ->
  plain (str_take 10 (api_token (client self))) = true ->
  display_server_info self w n
  = ([ConsolePrintPanel
        ("[bold blue]Server:[/bold blue] " ++ server_url (client self) ++ nl
           ++ "[bold blue]Token:[/bold blue] "
           ++ str_take 10 (api_token (client self)) ++ "...")
        "[bold green]SnipeIT Configuration[/bold green]" "blue"],
     n, Ok tt).
Proof.
  intros Hurl Htoken. unfold display_server_info.
  apply console_print_panel_run; [reflexivity |].
  apply (accepted_2 "[bold blue]Server:[/bold blue] " (server_url (client self))
           (nl ++ "[bold blue]Token:[/bold blue] ")
           (str_take 10 (api_token (client self))) "...");
    [reflexivity | assumption | assumption].
Qed.

(** The connectivity test sends one request.  It returns [True] when the
    answer has status 200. *)
Lemma test_connection_passes self w n :
  probe_ok (net w n (server_url (client self) ++ "/api/v1/statuslabels")) = true ->
  exists out,
    test_connection self w n = (out, S n, Ok true)
    /\ filter is_HttpGet out
       = [HttpGet (server_url (client self) ++ "/api/v1/statuslabels")]
    /\ filter is_JsonDump out = [].
Proof.
  cbv beta iota zeta
    delta [test_connection client_test_connection try_except bind session_get
           emit ret probe_ok].
  destruct (net w n _) as [e | [code payload]]; cbn [status_code]; [discriminate |].
  intros ->. cbv beta iota.
  rewrite console_print_run by reflexivity.
  eexists. split; [reflexivity | split; reflexivity].
Qed.

(** When it fails, the test returns [False] or raises an exception that
    ends the process with status 1. *)
Lemma test_connection_fails self w n :
  probe_fails (net w n (server_url (client self) ++ "/api/v1/statuslabels")) = true ->
  exists out r,
    test_connection self w n = (out, S n, r)
    /\ filter is_HttpGet out
       = [HttpGet (server_url (client self) ++ "/api/v1/statuslabels")]
    /\ (r = Ok false \/ exists e, r = Raise e /\ exit_code (@Raise unit e) = 1%Z).
Proof.
  cbv beta iota zeta
    delta [test_connection client_test_connection try_except bind session_get
           emit ret probe_fails].
  destruct (net w n _) as [e | [code payload]]; cbn [status_code].
  - destruct e; try discriminate;
      try (intros _; do 2 eexists;
           split; [reflexivity | split; [reflexivity | right; eexists; split; reflexivity]]).
    intros Hmsg. cbv beta iota.
    rewrite console_print_run by (apply connection_error_accepted, Hmsg).
    cbv beta iota. rewrite console_print_run by reflexivity.
    do 2 eexists. split; [reflexivity | split; [reflexivity | left; reflexivity]].
  - intros Hcode. apply negb_true_iff in Hcode. rewrite Hcode. cbv beta iota.
    rewrite console_print_run by (apply connection_error_accepted, plain_str_of_Z).
    cbv beta iota. rewrite console_print_run by reflexivity.
    do 2 eexists. split; [reflexivity | split; [reflexivity | left; reflexivity]].
Qed.

(** Rows of strings always go into the table. *)
Lemma endpoint_rows_table self (l : list (string * string)) :
  forall t,
    for_each l
      (fun '(endpoint, description) t =>
         add_row [JStr endpoint; JStr description;
                  JStr (server_url (client self) ++ "/api/v1/" ++ endpoint)] t)
      t
    = Ok {| table_title := table_title t;
            table_columns := table_columns t;
            table_rows :=
              (table_rows t
                 ++ map (fun e => [fst e; snd e;
                                   (server_url (client self) ++ "/api/v1/" ++ fst e)%string])
                      l)%list |}.
Proof.
  induction l as [| [endpoint description] l IH]; intros t.
  - cbn. rewrite app_nil_r. destruct t; reflexivity.
  - cbn [for_each add_row renderables renderable rbind]. rewrite IH.
    cbn [table_title table_columns table_rows map fst snd].
    rewrite <- app_assoc. reflexivity.
Qed.

(** The table of endpoints, for a base URL without markup. *)
Lemma show_api_endpoints_run self w n :
  plain (server_url (client self)) = true ->
  exists heading t,
    show_api_endpoints self w n
    = ([ConsolePrint heading; ConsolePrintTable t], n, Ok tt)
    /\ table_rows t
       = map (fun e => [fst e; snd e; server_url (client self) ++ "/api/v1/" ++ fst e])
           endpoints.
Proof.
  intros Hurl.
  cbv beta iota zeta delta [show_api_endpoints bind lift ret].
  rewrite console_print_run by reflexivity. cbv beta iota.
  rewrite endpoint_rows_table.
  rewrite console_print_table_run.
  - do 2 eexists. split; reflexivity.
  - apply table_texts_accepted; [reflexivity | reflexivity |].
    cbn [table_rows add_column new_Table app].
    apply Forall_forall. intros row Hrow.
    apply in_map_iff in Hrow as ([endpoint description] & <- & Hin).
    cbn [fst snd forallb].
    assert (Hfixed : forallb (fun e => accepted (fst e) && accepted (snd e)
                                       && plain (fst e)) endpoints = true)
      by reflexivity.
    pose proof (proj1 (forallb_forall _ _) Hfixed _ Hin) as He.
    cbn [fst snd] in He.
    apply andb_true_iff in He as [He Hp]. apply andb_true_iff in He as [He Hd].
    rewrite He, Hd, andb_true_r. cbn [andb].
    apply accepted_plain, plain_app; [assumption |].
    apply plain_app; [reflexivity | assumption].
Qed.

(** The [try] of the export on a disk that takes the file or fails with
    an export error: it returns, and sends nothing. *)
Lemma export_write_writable filename config w m :
  plain filename = true ->
  writable w filename config = true ->
  exists out,
    export_write filename config w m = (out, m, Ok tt)
    /\ filter is_HttpGet out = [].
Proof.
  intros Hf Hw. pose proof (export_write_run filename w config m Hf) as H.
  unfold writable in Hw.
  destruct (disk_open w filename) as [e |].
  - rewrite (H Hw). eexists. split; reflexivity.
  - destruct (disk_dump w filename config) as [e |].
    + rewrite (H Hw). eexists. split; reflexivity.
    + rewrite H. eexists. split; reflexivity.
Qed.

Lemma listable_answers k o : listable k o -> answers o = true.
Proof.
  intros [[H _] | (fields & -> & _)]; [exact H | reflexivity].
Qed.

Section Requests.

Variable self : SnipeITSettingsLister.
Variable w : world.
Hypothesis fetches_listable :
  forall i k, (1 <= i)%nat ->
    listable k (net w i (api_url (client self) (endpoint_of k))).

Lemma sends_bind (m k : M unit) u1 u2 :
  sends w m u1 -> sends w k u2 -> sends w (m ;; k) (u1 ++ u2).
Proof.
  intros Hm Hk n Hn.
  destruct (Hm n Hn) as (out & n' & Em & Hle & Hu).
  destruct (Hk n' ltac:(lia)) as (out' & n'' & Ek & Hle' & Hu').
  exists (out ++ out')%list, n''.
  rewrite (bind_Ok _ _ _ _ _ _ _ Em), Ek.
  split; [reflexivity |]. split; [lia |].
  rewrite filter_app, Hu, Hu', map_app. reflexivity.
Qed.

Lemma sends_nothing : sends w (ret tt) [].
Proof. intros n Hn. exists [], n. repeat split. lia. Qed.

Lemma sends_when b (m : M unit) u :
  (b = true -> sends w m u) -> sends w (when b m) (if b then u else []).
Proof.
  intros Hm. destruct b; [exact (Hm eq_refl) | exact sends_nothing].
Qed.

Lemma sends_print text : accepted text = true -> sends w (console_print text) [].
Proof.
  intros H n Hn. exists [ConsolePrint text], n.
  rewrite (console_print_run _ _ _ H). repeat split. lia.
Qed.

Lemma sends_lister k :
  sends w (lister_of k self) [api_url (client self) (endpoint_of k)].
Proof.
  intros n Hn.
  destruct (fetches_listable n k Hn)
    as [[Hans Hfalsy] | (fields & Hnet & Hne & Hrows)].
  - destruct (get_api_data_run (client self) (endpoint_of k) w n
                (plain_endpoint_of k) Hans) as (log & E & Hlog).
    destruct (lister_not_retrieved k self w n _ _ _ E Hfalsy)
      as (heading & notices & Erun & _ & Hnotices).
    eexists _, (S n). split; [exact Erun |]. split; [lia |].
    cbn [filter is_HttpGet app map]. rewrite filter_app.
    rewrite (no_get_in_log _ Hlog), (prints_no_get _ Hnotices). reflexivity.
  - destruct (lookup "rows" fields) as [rows |] eqn:Hl.
    + destruct rows as [| | | | | items |]; try contradiction.
      destruct (lister_shows_rows k self w n fields items Hnet Hl Hrows)
        as (heading & t & Erun & _).
      eexists _, (S n). split; [exact Erun |]. split; [lia |].
      cbn [filter is_HttpGet app map].
      destruct (cap_of k) as [c |]; [destruct (c <? _)%nat |]; reflexivity.
    + destruct (lister_no_rows k self) as (heading & t & _ & Hrun).
      eexists _, (S n).
      split; [apply (Hrun w n fields (truthy_fields _ Hne) (or_introl Hl) Hnet) |].
      split; [lia | reflexivity].
Qed.

Lemma sends_endpoints :
  plain (server_url (client self)) = true -> sends w (show_api_endpoints self) [].
Proof.
  intros Hurl n Hn.
  destruct (show_api_endpoints_run self w n Hurl) as (heading & t & E & _).
  eexists _, n. split; [exact E |]. split; [lia | reflexivity].
Qed.

Lemma sends_export filename :
  plain filename = true ->
  (forall document, writable w filename document = true) ->
  sends w (export_config self filename)
    (map (api_url (client self)) export_endpoints).
Proof.
  intros Hf Hw n Hn.
  destruct (export_config_run self filename w n Hf) as (log & E & Hgets & _).
  { intros i endpoint Hi.
    do 9 (destruct i as [| i];
          [ injection Hi as <-;
            match goal with
            | |- answers (net w ?j _) = true =>
                assert (Hj : (1 <= j)%nat) by lia;
                first [ exact (listable_answers Categories _ (fetches_listable j Categories Hj))
                      | exact (listable_answers Models _ (fetches_listable j Models Hj))
                      | exact (listable_answers Fields _ (fetches_listable j Fields Hj))
                      | exact (listable_answers StatusLabels _
                                 (fetches_listable j StatusLabels Hj))
                      | exact (listable_answers Companies _ (fetches_listable j Companies Hj))
                      | exact (listable_answers Locations _ (fetches_listable j Locations Hj))
                      | exact (listable_answers Departments _
                                 (fetches_listable j Departments Hj))
                      | exact (listable_answers Suppliers _ (fetches_listable j Suppliers Hj))
                      | exact (listable_answers Manufacturers _
                                 (fetches_listable j Manufacturers Hj)) ]
            end
          |]).
    destruct i; discriminate Hi. }
  destruct (export_write_writable filename (export_document self w n) w (9 + n) Hf
              (Hw _)) as (out & Ew & Hout).
  rewrite Ew in E.
  eexists _, (9 + n)%nat. split; [exact E |]. split; [lia |].
  rewrite filter_app, Hgets, Hout, app_nil_r. reflexivity.
Qed.

End Requests.

Lemma sends_when_silent w b (m : M unit) : sends w m [] -> sends w (when b m) [].
Proof. intros Hm. destruct b; [exact Hm | apply sends_nothing]. Qed.

(** The selection [main] computes is the one of the specification. *)
Lemma selection_spec args : show_all args = args_all args || no_selection args.
Proof.
  unfold show_all, no_selection.
  destruct (args_all args), (any _); reflexivity.
Qed.

(** The selection [main] computes when no selection flag is given. *)
Lemma show_all_without_flags args : no_selection args = true -> show_all args = true.
Proof.
  unfold no_selection, show_all. intros H.
  apply negb_true_iff, orb_false_iff in H as [Hall Hany].
  rewrite Hall, Hany. reflexivity.
Qed.

(** A run that gets to its end.  The base URL, the token prefix and the
    export file name hold no markup; the connectivity test passes; every
    later fetch fails in a way [get_api_data] reports, or brings records
    that are shown; the export file is written or its failure is
    reported.  Then [main] returns, and the requests sent are those of
    the specification. *)
Lemma main_completes args w :
  valid_scheme args = true ->
  plain (server_url (startup_client args)) = true ->
  plain (str_take 10 (args_token args)) = true ->
  (args_export args = true ->
   plain (args_export_file args) = true
   /\ forall document, writable w (args_export_file args) document = true) ->
  probe_ok (net w 0%nat (probe_url args)) = true ->
  (forall i k, (1 <= i)%nat ->
     listable k (net w i (api_url (startup_client args) (endpoint_of k)))) ->
  outcome_of (run args w) = Ok tt
  /\ filter is_HttpGet (events_of (run args w)) = map HttpGet (requests_of args).
Proof.
  unfold valid_scheme, probe_url, requests_of, startup_client, run, main.
  intros Hvalid Hurl Htoken Hexport Hprobe Hw.
  set (lister := {| client := SnipeITClient_init (args_server args) (args_token args) |})
    in *.
  destruct (test_connection_passes lister w 0%nat Hprobe) as (out & Etest & Hgets & _).
  pose proof (display_server_info_run lister w 0%nat Hurl Htoken) as Ebanner.
  rewrite (bind_Ok _ _ _ _ [] 0%nat tt) by (rewrite Hvalid; reflexivity).
  rewrite (bind_Ok _ _ _ _ _ _ _ Ebanner).
  rewrite (bind_Ok _ _ _ _ _ _ _ Etest).
  rewrite (bind_Ok _ _ _ _ [] 1%nat tt) by reflexivity.
  rewrite <- selection_spec.
  match goal with
  | |- context [@bind unit unit ?m ?k w 1%nat] =>
      match goal with
      | |- context [concat ?urls] => assert (Hrest : sends w (bind m k) (concat urls))
      end
  end.
  { cbn [concat].
    do 9 (apply sends_bind;
          [apply sends_when; intros _;
           first [ exact (sends_lister lister w Hw Categories)
                 | exact (sends_lister lister w Hw Models)
                 | exact (sends_lister lister w Hw Fields)
                 | exact (sends_lister lister w Hw StatusLabels)
                 | exact (sends_lister lister w Hw Companies)
                 | exact (sends_lister lister w Hw Locations)
                 | exact (sends_lister lister w Hw Departments)
                 | exact (sends_lister lister w Hw Suppliers)
                 | exact (sends_lister lister w Hw Manufacturers) ] |]).
    apply (sends_bind w _ _ [] _);
      [apply sends_when_silent, sends_endpoints; exact Hurl |].
    apply sends_bind.
    - apply sends_when. intros He. destruct (Hexport He) as [Hfile Hdisk].
      apply sends_export; assumption.
    - apply sends_print. reflexivity. }
  destruct (Hrest 1%nat (le_n 1)) as (out' & n' & Erest & _ & Hu).
  rewrite Erest.
  cbn [outcome_of events_of fst snd app].
  split; [reflexivity |].
  cbn [filter is_HttpGet].
  rewrite filter_app, Hgets, Hu. reflexivity.
Qed.

(** C6.  When the server URL starts with neither [http://] nor
    [https://], the run ends with exit status 1 and no request was sent.
    When the connectivity test fails, the run ends with exit status 1 and
    the only request sent is the test's own.  When the test passes,
    [main] returns and the exit status is 0, whichever of the later
    fetches fail and whichever bring records that are shown, and whether
    or not the export file can be written.  The texts the run prints
    from its inputs (base URL, token prefix, export file name, error
    messages) are taken to hold no markup. *)
Theorem exit_codes args w :
  (valid_scheme args = false ->
   exit_code (outcome_of (run args w)) = 1%Z
   /\ filter is_HttpGet (events_of (run args w)) = [])
  /\ (valid_scheme args = true ->
      plain (server_url (startup_client args)) = true ->
      plain (str_take 10 (args_token args)) = true ->
      probe_fails (net w 0%nat (probe_url args)) = true ->
      exit_code (outcome_of (run args w)) = 1%Z
      /\ filter is_HttpGet (events_of (run args w)) = [HttpGet (probe_url args)])
  /\ (valid_scheme args = true ->
      plain (server_url (startup_client args)) = true ->
      plain (str_take 10 (args_token args)) = true ->
      (args_export args = true ->
       plain (args_export_file args) = true
       /\ forall document, writable w (args_export_file args) document = true) ->
      probe_ok (net w 0%nat (probe_url args)) = true ->
      (forall i k, (1 <= i)%nat ->
         listable k (net w i (api_url (startup_client args) (endpoint_of k)))) ->
      outcome_of (run args w) = Ok tt
      /\ exit_code (outcome_of (run args w)) = 0%Z).
Proof.
  split; [| split].
  - unfold valid_scheme, run, main. intros Hbad.
    rewrite (bind_Raise _ _ _ _
               [ConsolePrint "[red]Server URL must start with http:// or https://[/red]"]
               0%nat (SystemExit 1)) by (rewrite Hbad; reflexivity).
    split; reflexivity.
  - unfold valid_scheme, probe_url, startup_client, run, main.
    intros Hvalid Hurl Htoken Hprobe.
    set (lister := {| client := SnipeITClient_init (args_server args) (args_token args) |})
      in *.
    destruct (test_connection_fails lister w 0%nat Hprobe)
      as (out & r & Etest & Hgets & Hr).
    pose proof (display_server_info_run lister w 0%nat Hurl Htoken) as Ebanner.
    rewrite (bind_Ok _ _ _ _ [] 0%nat tt) by (rewrite Hvalid; reflexivity).
    rewrite (bind_Ok _ _ _ _ _ _ _ Ebanner).
    destruct Hr as [-> | (e & -> & Hexit)].
    + rewrite (bind_Ok _ _ _ _ _ _ _ Etest).
      rewrite (bind_Raise _ _ _ _ [] 1%nat (SystemExit 1)) by reflexivity.
      cbn [outcome_of events_of fst snd exit_code app filter is_HttpGet].
      rewrite app_nil_r. split; [reflexivity | exact Hgets].
    + rewrite (bind_Raise _ _ _ _ _ _ _ Etest).
      cbn [outcome_of events_of fst snd app filter is_HttpGet].
      split; [exact Hexit | exact Hgets].
  - intros Hvalid Hurl Htoken Hexport Hprobe Hw.
    destruct (main_completes args w Hvalid Hurl Htoken Hexport Hprobe Hw) as [Hok _].
    rewrite Hok. split; reflexivity.
Qed.

(** C8.  With no selection flag on the command line, the run is the run
    of the same command line with [--all] added: the same events in the
    same order, the same requests, the same outcome. *)
Theorem no_flags_is_all args w :
  no_selection args = true ->
  run args w = run (with_all args) w.
Proof.
  intros H. unfold run, main.
  rewrite (show_all_without_flags args H).
  reflexivity.
Qed.

(** C10.  [--export] is not among the flags [main] looks at to decide
    what to list: with [-s], [-t] and [--export] alone, [main] is the
    program that runs the ten listings in order, then the export, then
    prints its last line; and its run is the run of the same command line
    with [--all] added. *)
Theorem export_is_not_a_selection server token :
  let args := with_export (plain_args server token) in
  let lister := {| client := SnipeITClient_init server token |} in
  main args
  = ((if negb (prefix "http://" server || prefix "https://" server)
      then
        console_print "[red]Server URL must start with http:// or https://[/red]" ;;
        raise (SystemExit 1)
      else ret tt) ;;
     display_server_info lister ;;
     connected <- test_connection lister ;;
     (if negb connected then raise (SystemExit 1) else ret tt) ;;
     list_asset_types lister ;;
     list_models lister ;;
     list_custom_fields lister ;;
     list_status_labels lister ;;
     list_companies lister ;;
     list_locations lister ;;
     list_departments lister ;;
     list_suppliers lister ;;
     list_manufacturers lister ;;
     show_api_endpoints lister ;;
     export_config lister "snipeit_config.json" ;;
     console_print (nl ++ "[bold green]✅ Analysis completed![/bold green]"))
  /\ forall w, run args w = run (with_all args) w.
Proof.
  split.
  - reflexivity.
  - intros w. reflexivity.
Qed.

(* ================================================================== *)
(** * Further properties of the code *)
(* ================================================================== *)

Section ServerUrl.

Lemma rstrip_slash_slashes k : rstrip_slash (slashes k) = "".
Proof.
  induction k as [| k IH]; [reflexivity |].
  cbn [slashes rstrip_slash]. rewrite IH. reflexivity.
Qed.

Lemma rstrip_slash_split s : exists k, s = rstrip_slash s ++ slashes k.
Proof.
  induction s as [| c s IH]; [exists 0%nat; reflexivity |].
  destruct IH as [k IH]. cbn [rstrip_slash].
  destruct (rstrip_slash s =? "") eqn:Hr; cbn [andb].
  - destruct (Ascii.eqb c "/") eqn:Hc; cbn [andb].
    + apply String.eqb_eq in Hr. apply Ascii.eqb_eq in Hc. subst c.
      exists (S k). rewrite IH at 1. rewrite Hr. reflexivity.
    + exists k. cbn. rewrite <- IH. reflexivity.
  - exists k. cbn. rewrite <- IH. reflexivity.
Qed.

Lemma rstrip_slash_no_trailing s r : rstrip_slash s <> r ++ "/".
Proof.
  revert r. induction s as [| c s IH]; intros r.
  - destruct r; discriminate.
  - cbn [rstrip_slash].
    destruct (rstrip_slash s =? "") eqn:Hr; cbn [andb].
    + destruct (Ascii.eqb c "/") eqn:Hc; cbn [andb].
      * destruct r; discriminate.
      * apply String.eqb_eq in Hr. rewrite Hr.
        destruct r as [| c' r]; cbn; intros H; inversion H; subst.
        -- rewrite Ascii.eqb_refl in Hc. discriminate.
        -- destruct r; discriminate.
    + apply String.eqb_neq in Hr.
      destruct r as [| c' r]; cbn; intros H; inversion H; subst.
      * congruence.
      * apply (IH r). assumption.
Qed.

Lemma rstrip_slash_app_slashes s k : rstrip_slash (s ++ slashes k) = rstrip_slash s.
Proof.
  induction s as [| c s IH]; cbn [append rstrip_slash].
  - apply rstrip_slash_slashes.
  - rewrite IH. reflexivity.
Qed.

(** X1.  The base URL a client keeps never ends with a slash, and the
    URL it was given is that base URL followed by slashes only. *)
Theorem server_url_stripped server token :
  (forall r, server_url (SnipeITClient_init server token) <> r ++ "/")
  /\ exists k, server = server_url (SnipeITClient_init server token) ++ slashes k.
Proof.
  split.
  - intros r. apply rstrip_slash_no_trailing.
  - apply rstrip_slash_split.
Qed.

(** X2.  Slashes added at the end of the server URL change nothing: the
    client built is the same. *)
Theorem trailing_slashes_ignored server token k :
  SnipeITClient_init (server ++ slashes k) token = SnipeITClient_init server token.
Proof.
  unfold SnipeITClient_init. rewrite rstrip_slash_app_slashes. reflexivity.
Qed.

End ServerUrl.

Section Probe.

Variable self : SnipeITClient.
Variable w : world.
Variable n : nat.

(** X3.  The client's connection test sends one request to
    [/api/v1/statuslabels].  It returns [True], printing nothing, exactly
    when the status is 200, whatever the body; for another status it
    returns [False] after one line that carries the status code.  When
    the request raises a [RequestException] whose text holds no markup,
    it returns [False] after one line that carries the text; an exception
    of another class goes through to the caller. *)
Theorem client_test_connection_outcome :
  let url := server_url self ++ "/api/v1/statuslabels" in
  match net w n url with
  | Responds r =>
      if (status_code r =? 200)%Z
      then client_test_connection self w n = ([HttpGet url], S n, Ok true)
      else client_test_connection self w n
           = ([HttpGet url;
               ConsolePrint ("[red]Connection error: " ++ str_of_Z (status_code r)
                               ++ "[/red]")],
              S n, Ok false)
  | Raises (RequestException msg) =>
      plain msg = true ->
      client_test_connection self w n
      = ([HttpGet url; ConsolePrint ("[red]Connection error: " ++ msg ++ "[/red]")],
         S n, Ok false)
  | Raises e => client_test_connection self w n = ([HttpGet url], S n, Raise e)
  end.
Proof.
  cbv beta iota zeta
    delta [client_test_connection try_except bind session_get ret].
  destruct (net w n _) as [e | r].
  - destruct e; try reflexivity.
    intros Hmsg. cbv beta iota.
    rewrite console_print_run by (apply connection_error_accepted, Hmsg).
    reflexivity.
  - destruct (status_code r =? 200)%Z; [reflexivity |].
    cbv beta iota.
    rewrite console_print_run by (apply connection_error_accepted, plain_str_of_Z).
    reflexivity.
Qed.

End Probe.

(** X4.  For a base URL and a token prefix that hold no markup, the
    banner prints the base URL and a prefix of the token of at most ten
    characters, the whole token when it has ten or fewer; it sends no
    request and returns. *)
Theorem display_server_info_token self w n :
  plain (server_url (client self)) = true ->
  plain (str_take 10 (api_token (client self))) = true ->
  exists shown,
    display_server_info self w n
    = ([ConsolePrintPanel
          ("[bold blue]Server:[/bold blue] " ++ server_url (client self) ++ nl
             ++ "[bold blue]Token:[/bold blue] " ++ shown ++ "...")
          "[bold green]SnipeIT Configuration[/bold green]" "blue"],
       n, Ok tt)
    /\ prefix shown (api_token (client self)) = true
    /\ str_len shown = Nat.min 10 (str_len (api_token (client self))).
Proof.
  intros Hurl Htoken.
  exists (str_take 10 (api_token (client self))).
  split; [apply display_server_info_run; assumption |].
  split; [apply prefix_str_take | apply str_len_take].
Qed.

(** X5.  For a base URL that holds no markup, the table of API
    endpoints needs no network: no request is sent, nothing is raised,
    and the table has the fifteen rows of the fixed list, each with the
    URL built from the client's base URL. *)
Theorem show_api_endpoints_static self w n :
  plain (server_url (client self)) = true ->
  exists heading t,
    show_api_endpoints self w n
    = ([ConsolePrint heading; ConsolePrintTable t], n, Ok tt)
    /\ table_rows t
       = map (fun e => [fst e; snd e; server_url (client self) ++ "/api/v1/" ++ fst e])
           endpoints
    /\ List.length (table_rows t) = 15%nat.
Proof.
  intros Hurl.
  destruct (show_api_endpoints_run self w n Hurl) as (heading & t & E & Hrows).
  exists heading, t. split; [exact E |]. split; [exact Hrows |].
  rewrite Hrows, length_map. reflexivity.
Qed.

Section CustomFields.

Lemma join_items_strings i ss : join_items i (map JStr ss) = Ok ss.
Proof.
  revert i. induction ss as [| s ss IH]; intros i; cbn; [reflexivity |].
  rewrite IH. reflexivity.
Qed.

Variable fields : list (string * json).

(** X6.  The Elements cell of a custom field: for a list of strings,
    its first three values joined by [", "], followed by [...] exactly
    when there are more than three; for a null or missing list, the empty
    string.  The other cells are the record's [id], [name], [format],
    [field_type] and the glyph of [required]. *)
Theorem field_row_elements :
  (forall ss,
      lookup "field_values_array" fields = Some (JArr (map JStr ss)) ->
      field_row (JObj fields)
      = Ok [JStr (py_str (dict_get fields "id" (JStr "")));
            dict_get fields "name" (JStr "");
            dict_get fields "format" (JStr "");
            dict_get fields "field_type" (JStr "");
            JStr (if truthy (dict_get fields "required" (JBool false))
                  then "✅" else "❌");
            JStr (String.concat ", " (firstn 3 ss)
                    ++ (if (3 <? List.length ss)%nat then "..." else ""))])
  /\ (lookup "field_values_array" fields = Some JNull
      \/ lookup "field_values_array" fields = None ->
      field_row (JObj fields)
      = Ok [JStr (py_str (dict_get fields "id" (JStr "")));
            dict_get fields "name" (JStr "");
            dict_get fields "format" (JStr "");
            dict_get fields "field_type" (JStr "");
            JStr (if truthy (dict_get fields "required" (JBool false))
                  then "✅" else "❌");
            JStr ""]).
Proof.
  split.
  - intros ss H. unfold field_row, str_get, py_get, dict_get. rewrite H.
    cbn [py_slice_to rbind py_join py_iter py_len].
    rewrite firstn_map, join_items_strings, length_map. reflexivity.
  - intros H. unfold field_row, str_get, py_get, dict_get.
    destruct H as [H | H]; rewrite H; reflexivity.
Qed.

End CustomFields.

(** X7.  In every listing, a record that is not an object (null, a
    number, a string, a list) raises [AttributeError] at the first
    [.get]. *)
Theorem row_of_non_object k record :
  (forall fields, record <> JObj fields) ->
  row_of k record
  = Raise (AttributeError ("'" ++ type_name record ++ "' object has no attribute 'get'")).
Proof.
  intros H.
  destruct record; try (destruct k; reflexivity).
  exfalso. apply (H fields). reflexivity.
Qed.

(** The loop of a lister stops at the first record that does not render. *)
Lemma for_each_rows_fail (row : json -> result (list json)) items :
  forallb (fun r => is_Ok (cells <~ row r ;; renderables cells)) items = false ->
  forall t, exists e,
    for_each items (fun r t => cells <~ row r ;; add_row cells t) t = Raise e.
Proof.
  induction items as [| r items IH]; intros Hbad t; cbn in *; [discriminate |].
  unfold add_row at 1.
  destruct (row r) as [cells | e]; cbn in *; [| eauto].
  destruct (renderables cells) as [ss | e]; cbn in *; [| eauto].
  apply (IH Hbad).
Qed.

(** X8.  When one of the records a lister shows does not render, the
    lister raises after its heading and its request: it prints neither
    the overflow notice nor the table. *)
Theorem listing_stops_at_bad_record k self w n fields rows :
  net w n (api_url (client self) (endpoint_of k)) = ok_200 (JObj fields) ->
  lookup "rows" fields = Some (JArr rows) ->
  forallb (renders k)
    (match cap_of k with Some c => firstn c rows | None => rows end) = false ->
  exists heading e,
    lister_of k self w n
    = ([ConsolePrint heading; HttpGet (api_url (client self) (endpoint_of k))],
       S n, Raise e).
Proof.
  intros Hnet Hrows Hbad.
  pose proof (truthy_with_rows _ _ Hrows) as Ht.
  destruct k; enter_lister Hnet Ht; unfold py_get, dict_get; rewrite Hrows;
    cbn [rbind py_iter py_slice_to py_len];
    match goal with
    | |- context [for_each ?items (fun r t => cells <~ ?row r ;; add_row cells t) ?t0] =>
        destruct (for_each_rows_fail row items Hbad t0) as (e & Heq);
        rewrite Heq
    end;
    do 2 eexists; reflexivity.
Qed.

(** X9.  A capped lister never reads a record past its cap: two
    responses with the same number of records and the same first [C]
    records give the same run, whatever the other records are. *)
Theorem listing_ignores_records_past_cap k c self w w' n fields fields' rows rows' :
  cap_of k = Some c ->
  net w n (api_url (client self) (endpoint_of k)) = ok_200 (JObj fields) ->
  net w' n (api_url (client self) (endpoint_of k)) = ok_200 (JObj fields') ->
  lookup "rows" fields = Some (JArr rows) ->
  lookup "rows" fields' = Some (JArr rows') ->
  firstn c rows = firstn c rows' ->
  List.length rows = List.length rows' ->
  lister_of k self w n = lister_of k self w' n.
Proof.
  intros Hcap Hnet Hnet' Hrows Hrows' Hshown Hlen.
  pose proof (truthy_with_rows _ _ Hrows) as Ht.
  pose proof (truthy_with_rows _ _ Hrows') as Ht'.
  destruct k; try discriminate Hcap; injection Hcap as <-;
    open_lister; do 2 print_line;
    rewrite (get_api_data_200 _ _ _ _ _ Hnet), (get_api_data_200 _ _ _ _ _ Hnet');
    cbv beta iota; rewrite Ht, Ht';
    unfold py_get, dict_get; rewrite Hrows, Hrows';
    cbn [negb rbind py_iter py_slice_to py_len];
    rewrite Hshown, Hlen;
    destruct (_ <? List.length rows')%nat; reflexivity.
Qed.

Section ExportOutcome.

Variable self : SnipeITSettingsLister.
Variable filename : string.
Variable w : world.
Variable n : nat.

(** X10.  For a file name that holds no markup and nine fetches that are
    answered, the export sends exactly nine requests, for categories,
    models, fields, statuslabels, companies, locations, departments,
    suppliers and manufacturers in this order, whatever the disk does
    afterwards. *)
Theorem export_config_requests :
  plain filename = true ->
  (forall i endpoint,
      nth_error export_endpoints i = Some endpoint ->
      answers (net w (i + n) (api_url (client self) endpoint)) = true) ->
  exists log r,
    export_config self filename w n = (log, (9 + n)%nat, r)
    /\ filter is_HttpGet log
       = [HttpGet (api_url (client self) "categories");
          HttpGet (api_url (client self) "models");
          HttpGet (api_url (client self) "fields");
          HttpGet (api_url (client self) "statuslabels");
          HttpGet (api_url (client self) "companies");
          HttpGet (api_url (client self) "locations");
          HttpGet (api_url (client self) "departments");
          HttpGet (api_url (client self) "suppliers");
          HttpGet (api_url (client self) "manufacturers")].
Proof.
  intros Hplain Hans.
  destruct (export_config_run self filename w n Hplain Hans) as (log & E & Hgets & _).
  destruct (export_write_events filename w (export_document self w n) (9 + n))
    as (out & r & Ew & Hout & _).
  rewrite Ew in E.
  exists (log ++ out)%list, r. split; [exact E |].
  rewrite filter_app, Hgets, Hout, app_nil_r. reflexivity.
Qed.

(** X11.  For a file name that holds no markup and nine fetches that are
    answered, the export ends in one of three ways, each time returning
    normally.  When the file cannot be opened, nothing is written and the
    last line is the error.  When the dump fails, the file was opened, so
    emptied, the document is not in it and the last line is the error.
    Otherwise the document is written, followed by the line of success.
    The error is one [except Exception] catches and whose text holds no
    markup. *)
Theorem export_config_write_outcome :
  plain filename = true ->
  (forall i endpoint,
      nth_error export_endpoints i = Some endpoint ->
      answers (net w (i + n) (api_url (client self) endpoint)) = true) ->
  exists log,
    filter is_FileOpen log = []
    /\ filter is_JsonDump log = []
    /\ match disk_open w filename with
       | Some e =>
           export_error e = true ->
           export_config self filename w n
           = ((log ++ [ConsolePrint ("[red]Error during export: " ++ exn_str e
                                       ++ "[/red]")])%list,
              (9 + n)%nat, Ok tt)
       | None =>
           match disk_dump w filename (export_document self w n) with
           | Some e =>
               export_error e = true ->
               export_config self filename w n
               = ((log ++ [FileOpen filename;
                           ConsolePrint ("[red]Error during export: " ++ exn_str e
                                           ++ "[/red]")])%list,
                  (9 + n)%nat, Ok tt)
           | None =>
               export_config self filename w n
               = ((log ++ [FileOpen filename;
                           JsonDump filename (export_document self w n);
                           ConsolePrint ("[green]Configuration exported successfully to "
                                           ++ filename ++ "[/green]")])%list,
                  (9 + n)%nat, Ok tt)
           end
       end.
Proof.
  intros Hplain Hans.
  destruct (export_config_run self filename w n Hplain Hans)
    as (log & E & _ & Hdumps & Hopens).
  pose proof (export_write_run filename w (export_document self w n) (9 + n) Hplain)
    as Hw.
  exists log. split; [exact Hopens |]. split; [exact Hdumps |].
  destruct (disk_open w filename) as [e |].
  - intros He. rewrite E, (Hw He). reflexivity.
  - destruct (disk_dump w filename _) as [e |].
    + intros He. rewrite E, (Hw He). reflexivity.
    + rewrite E, Hw. reflexivity.
Qed.

End ExportOutcome.

(** X12.  In a run whose inputs hold no markup, whose connection test
    passes and whose later fetches each fail in a way that is reported or
    bring records that are shown, [main] returns and the requests sent
    are: the test's, then one per selected listing in the fixed order of
    the listings, all nine under [--all] and when no selection flag is
    given, then the nine of the export when [--export] is given.  A
    failed fetch does not stop the later ones. *)
Theorem main_requests args w :
  valid_scheme args = true ->
  plain (server_url (startup_client args)) = true ->
  plain (str_take 10 (args_token args)) = true ->
  (args_export args = true ->
   plain (args_export_file args) = true
   /\ forall document, writable w (args_export_file args) document = true) ->
  probe_ok (net w 0%nat (probe_url args)) = true ->
  (forall i k, (1 <= i)%nat ->
     listable k (net w i (api_url (startup_client args) (endpoint_of k)))) ->
  outcome_of (run args w) = Ok tt
  /\ filter is_HttpGet (events_of (run args w)) = map HttpGet (requests_of args).
Proof. exact (main_completes args w). Qed.

(** X13.  When [get_api_data] returns a falsy value ([None] after a
    failure, or a body that is null, empty or zero), the lister adds
    nothing to what the fetch did but its heading and its notice: it
    prints no table, sends no other request and returns normally. *)
Theorem lister_skips_falsy_fetch k self w n log n' data :
  get_api_data (client self) (endpoint_of k) w n = (log, n', Ok data) ->
  truthy data = false ->
  exists heading notices,
    lister_of k self w n
    = ((ConsolePrint heading :: log ++ notices)%list, n', Ok tt)
    /\ notices <> []
    /\ forallb is_ConsolePrint notices = true.
Proof. exact (lister_not_retrieved k self w n log n' data). Qed.

(** X14.  A 200 response whose body is truthy and not an object (a
    list, a string, a number) makes every lister raise [AttributeError]
    on [data.get], after its heading and its request. *)
Theorem lister_raises_on_non_object_body k self w n v :
  net w n (api_url (client self) (endpoint_of k)) = ok_200 v ->
  truthy v = true ->
  (forall fields, v <> JObj fields) ->
  exists heading,
    lister_of k self w n
    = ([ConsolePrint heading; HttpGet (api_url (client self) (endpoint_of k))],
       S n,
       Raise (AttributeError ("'" ++ type_name v ++ "' object has no attribute 'get'"))).
Proof.
  intros Hnet Ht Hv.
  destruct v; try discriminate Ht;
    try (destruct k; enter_lister Hnet Ht; eexists; reflexivity).
  exfalso. apply (Hv fields). reflexivity.
Qed.




Lemma renderables_raise cells e :
  renderables cells = Raise e -> exit_code (@Raise unit e) = 1%Z.
Proof.
  revert e. induction cells as [| v cells IH]; intros e; cbn; [discriminate |].
  destruct v; cbn; try (intros H; injection H as <-; reflexivity);
    destruct (renderables cells) as [ss | e']; cbn;
    try discriminate; intros H; injection H as <-; apply IH; reflexivity.
Qed.

Lemma category_row_raise record e :
  category_row record = Raise e -> exit_code (@Raise unit e) = 1%Z.
Proof.
  destruct record; cbn; try (intros H; injection H as <-; reflexivity).
  discriminate.
Qed.

(** An exception that leaves the loop of a lister is the one of a record:
    it ends the process with status 1. *)
Lemma for_each_rows_raise (row : json -> result (list json)) items :
  (forall r e, row r = Raise e -> exit_code (@Raise unit e) = 1%Z) ->
  forall t e,
    for_each items (fun r t => cells <~ row r ;; add_row cells t) t = Raise e ->
    exit_code (@Raise unit e) = 1%Z.
Proof.
  intros Hrow. induction items as [| r items IH]; intros t e; cbn; [discriminate |].
  unfold add_row at 1.
  destruct (row r) as [cells | e'] eqn:Er; cbn.
  - destruct (renderables cells) as [ss | e''] eqn:Ec; cbn.
    + apply IH.
    + intros H. injection H as <-. apply (renderables_raise _ _ Ec).
  - intros H. injection H as <-. apply (Hrow _ _ Er).
Qed.

(** X16.  In a run whose base URL and token prefix hold no markup:
    when the categories listing is selected and one of its records does
    not render, the run ends with exit status 1 after two requests, the
    connection test's and the categories fetch: no later listing is
    fetched and nothing is exported. *)
Theorem main_stops_at_bad_category args w fields rows :
  valid_scheme args = true ->
  plain (server_url (startup_client args)) = true ->
  plain (str_take 10 (args_token args)) = true ->
  probe_ok (net w 0%nat (probe_url args)) = true ->
  show_all args || args_categories args = true ->
  net w 1%nat (api_url (startup_client args) "categories") = ok_200 (JObj fields) ->
  lookup "rows" fields = Some (JArr rows) ->
  forallb (renders Categories) rows = false ->
  exit_code (outcome_of (run args w)) = 1%Z
  /\ filter is_HttpGet (events_of (run args w))
     = [HttpGet (probe_url args);
        HttpGet (api_url (startup_client args) "categories")]
  /\ filter is_JsonDump (events_of (run args w)) = [].
Proof.
  unfold valid_scheme, probe_url, startup_client, run, main.
  intros Hvalid Hurl Htoken Hprobe Hsel Hnet Hrows Hbad.
  pose proof (truthy_with_rows _ _ Hrows) as Ht.
  set (lister := {| client := SnipeITClient_init (args_server args) (args_token args) |})
    in *.
  destruct (test_connection_passes lister w 0%nat Hprobe)
    as (out & Etest & Hgets & Hdumps).
  pose proof (display_server_info_run lister w 0%nat Hurl Htoken) as Ebanner.
  assert (Elist : exists heading e,
             list_asset_types lister w 1%nat
             = ([ConsolePrint heading;
                 HttpGet (api_url (client lister) "categories")],
                2%nat, Raise e)
             /\ exit_code (@Raise unit e) = 1%Z).
  { open_lister. print_line. unfold lister. cbn [client].
    rewrite (get_api_data_200 _ _ _ _ _ Hnet). cbv beta iota.
    rewrite Ht. cbn [negb].
    unfold py_get, dict_get. rewrite Hrows. cbn [rbind py_iter].
    match goal with
    | |- context [for_each ?items (fun r t => cells <~ ?row r ;; add_row cells t) ?t0] =>
        destruct (for_each_rows_fail row items Hbad t0) as (e & Heq);
        pose proof (for_each_rows_raise row items category_row_raise t0 e Heq) as Hexit;
        rewrite Heq
    end.
    do 2 eexists. split; [reflexivity | exact Hexit]. }
  destruct Elist as (heading & e & Elist & Hexit).
  rewrite (bind_Ok _ _ _ _ [] 0%nat tt) by (rewrite Hvalid; reflexivity).
  rewrite (bind_Ok _ _ _ _ _ _ _ Ebanner).
  rewrite (bind_Ok _ _ _ _ _ _ _ Etest).
  rewrite (bind_Ok _ _ _ _ [] 1%nat tt) by reflexivity.
  rewrite Hsel.
  rewrite (bind_Raise _ _ _ _ _ _ _ Elist).
  cbn [outcome_of events_of fst snd app].
  split; [exact Hexit | split].
  - cbn [filter is_HttpGet]. rewrite filter_app, Hgets. reflexivity.
  - cbn [filter is_JsonDump]. rewrite filter_app, Hdumps. reflexivity.
Qed.

End Library.

(* ================================================================== *)
(** * Sample runs *)
(* ================================================================== *)

(** C5, as stated, fails: a request answered with status 200 does not
    always make [get_api_data] return a parsed body with nothing
    printed. *)
Lemma get_api_data_200_not_always_body :
  ~ (forall lib self endpoint w n r,
        net w n (api_url self endpoint) = Responds r ->
        status_code r = 200%Z ->
        exists v,
          get_api_data lib self endpoint w n
          = ([HttpGet (api_url self endpoint)], S n, Ok v)
          /\ body r = Json v).
Proof.
  intros claim.
  destruct (claim sample_library sample_client "models" (constant_world html_page) 0%nat
              {| status_code := 200;
                 body := Undecodable
                           (RequestException
                              "Expecting value: line 1 column 1 (char 0)") |}
              eq_refl eq_refl) as (v & Hrun & _).
  rewrite get_api_data_html_page in Hrun.
  discriminate Hrun.
Qed.

Lemma get_api_data_outcome_witness :
  plain "locations" = true
  /\ exists text,
      get_api_data sample_library sample_client "locations"
        (constant_world connection_refused) 0
      = ([HttpGet "https://snipe.example.com/api/v1/locations"; ConsolePrint text],
         1%nat, Ok JNull).
Proof.
  split; [reflexivity |].
  apply (get_api_data_outcome sample_library sample_client "locations"
           (constant_world connection_refused) 0%nat eq_refl).
  reflexivity.
Defined.

(** C3, as stated, fails: the object with no key at all has no [rows]
    key, and for it no table is printed. *)
Lemma list_asset_types_empty_object :
  ~ (forall lib self w n fields,
        net w n (api_url (client self) "categories") = ok_200 (JObj fields) ->
        lookup "rows" fields = None ->
        exists t, In (ConsolePrintTable t) (events_of (list_asset_types lib self w n))).
Proof.
  intros claim.
  destruct (claim sample_library sample_lister (constant_world (ok_200 (JObj []))) 0%nat []
              eq_refl eq_refl) as (t & Hin).
  cbn in Hin.
  repeat (destruct Hin as [Hin | Hin]; try discriminate).
  exact Hin.
Qed.

Lemma listing_row_count_witness :
  exists heading t,
    lister_of sample_library Models sample_lister
      (constant_world
         (ok_200 (JObj [("total", JInt 22); ("rows", JArr twenty_two_models)])))
      0
    = ([ConsolePrint heading;
        HttpGet "https://snipe.example.com/api/v1/models";
        ConsolePrint "[yellow]... and 2 other models[/yellow]";
        ConsolePrintTable t], 1%nat, Ok tt)
    /\ List.length (table_rows t) = 20%nat.
Proof.
  exact (listing_row_count sample_library Models sample_lister
           (constant_world
              (ok_200 (JObj [("total", JInt 22); ("rows", JArr twenty_two_models)])))
           0%nat [("total", JInt 22); ("rows", JArr twenty_two_models)]
           twenty_two_models eq_refl eq_refl eq_refl).
Defined.

Lemma listing_without_rows_witness :
  [("total", JInt 0)] <> []
  /\ exists heading t,
      lister_of sample_library Categories sample_lister
        (constant_world (ok_200 (JObj [("total", JInt 0)]))) 0
      = ([ConsolePrint heading;
          HttpGet "https://snipe.example.com/api/v1/categories";
          ConsolePrintTable t], 1%nat, Ok tt)
      /\ table_rows t = []
      /\ forall w',
          net w' 0%nat "https://snipe.example.com/api/v1/categories"
          = ok_200 (JObj [("rows", JArr []); ("total", JInt 0)]) ->
          lister_of sample_library Categories sample_lister w' 0
          = lister_of sample_library Categories sample_lister
              (constant_world (ok_200 (JObj [("total", JInt 0)]))) 0.
Proof.
  split; [discriminate |].
  apply (listing_without_rows sample_library Categories sample_lister
           (constant_world (ok_200 (JObj [("total", JInt 0)]))) 0%nat
           [("total", JInt 0)]); [discriminate | reflexivity | reflexivity].
Defined.


(** C2, as stated, fails: the keys of the written document are not only
    [server_url] and the nine resource kinds. *)
Lemma export_config_has_timestamp :
  ~ (forall lib self filename w n document,
        In (JsonDump filename document)
          (events_of (export_config lib self filename w n)) ->
        exists fields,
          document = JObj fields
          /\ forall key,
              In key (map fst fields)
              <-> In key ["server_url"; "categories"; "models"; "fields";
                          "statuslabels"; "companies"; "locations"; "departments";
                          "suppliers"; "manufacturers"]).
Proof.
  intros claim.
  destruct (claim sample_library sample_lister "snipeit_config.json"
              (constant_world connection_refused) 0%nat
              (JObj [("server_url", JStr "https://snipe.example.com");
                     ("timestamp", JNull);
                     ("categories", JNull); ("models", JNull); ("fields", JNull);
                     ("statuslabels", JNull); ("companies", JNull);
                     ("locations", JNull); ("departments", JNull);
                     ("suppliers", JNull); ("manufacturers", JNull)]))
    as (fields & Hdoc & Hkeys).
  - vm_compute. do 20 right. left. reflexivity.
  - injection Hdoc as <-.
    destruct (proj1 (Hkeys "timestamp")) as [H | H].
    + cbn. right. left. reflexivity.
    + discriminate H.
    + cbn in H. repeat (destruct H as [H | H]; try discriminate H). exact H.
Qed.

Lemma export_config_document_witness :
  exists document,
    filter is_JsonDump
      (events_of (export_config sample_library sample_lister "snipeit_config.json"
                    (constant_world connection_refused) 0))
    = [JsonDump "snipeit_config.json" document].
Proof.
  apply (proj2 (export_config_document sample_library sample_lister
                  "snipeit_config.json" (constant_world connection_refused) 0%nat));
    [reflexivity | intros i endpoint _; reflexivity | reflexivity
    | intros document; reflexivity].
Defined.

Lemma categories_only_listable i k :
  (1 <= i)%nat ->
  listable sample_library k (net categories_only_world i
                (api_url (startup_client (plain_args "https://snipe.example.com" "token"))
                   (endpoint_of k))).
Proof.
  intros Hi. destruct i as [| i]; [inversion Hi |].
  destruct k; try (left; split; reflexivity).
  right. eexists. split; [reflexivity |]. split; [discriminate | reflexivity].
Qed.

Lemma exit_codes_witness :
  (exit_code (outcome_of (run sample_library (plain_args "ftp://snipe.example.com" "token")
                            (constant_world (ok_200 (JObj [])))))
   = 1%Z
   /\ filter is_HttpGet
        (events_of (run sample_library (plain_args "ftp://snipe.example.com" "token")
                      (constant_world (ok_200 (JObj [])))))
      = [])
  /\ (exit_code (outcome_of (run sample_library
                               (plain_args "https://snipe.example.com" "token")
                               (constant_world connection_refused)))
      = 1%Z
      /\ filter is_HttpGet
           (events_of (run sample_library (plain_args "https://snipe.example.com" "token")
                         (constant_world connection_refused)))
         = [HttpGet "https://snipe.example.com/api/v1/statuslabels"])
  /\ (outcome_of (run sample_library
                    (with_export (plain_args "https://snipe.example.com" "token"))
                    categories_only_world)
      = Ok tt
      /\ exit_code (outcome_of (run sample_library
                                  (with_export
                                     (plain_args "https://snipe.example.com" "token"))
                                  categories_only_world))
         = 0%Z).
Proof.
  split; [| split].
  - apply (proj1 (exit_codes sample_library (plain_args "ftp://snipe.example.com" "token")
                    (constant_world (ok_200 (JObj []))))).
    reflexivity.
  - apply (proj1 (proj2 (exit_codes sample_library
                           (plain_args "https://snipe.example.com" "token")
                           (constant_world connection_refused))));
      reflexivity.
  - apply (proj2 (proj2 (exit_codes sample_library
                           (with_export (plain_args "https://snipe.example.com" "token"))
                           categories_only_world)));
      [reflexivity | reflexivity | reflexivity
      | intros _; split; [reflexivity | intros document; reflexivity]
      | reflexivity
      | exact categories_only_listable].
Defined.

Lemma no_flags_is_all_witness :
  no_selection (with_export (plain_args "https://snipe.example.com" "token")) = true
  /\ run sample_library (with_export (plain_args "https://snipe.example.com" "token"))
       (world_after_probe (ok_200 (JObj [("total", JInt 0); ("rows", JArr [])])))
     = run sample_library
         (with_all (with_export (plain_args "https://snipe.example.com" "token")))
         (world_after_probe (ok_200 (JObj [("total", JInt 0); ("rows", JArr [])]))).
Proof.
  split; [reflexivity |].
  apply (no_flags_is_all sample_library
           (with_export (plain_args "https://snipe.example.com" "token"))).
  reflexivity.
Defined.

Lemma client_test_connection_outcome_witness :
  plain "Connection refused" = true
  /\ client_test_connection sample_library sample_client
       (constant_world connection_refused) 0
     = ([HttpGet "https://snipe.example.com/api/v1/statuslabels";
         ConsolePrint "[red]Connection error: Connection refused[/red]"],
        1%nat, Ok false).
Proof.
  split; [reflexivity |].
  apply (client_test_connection_outcome sample_library sample_client
           (constant_world connection_refused) 0%nat).
  reflexivity.
Defined.

Lemma display_server_info_token_witness :
  exists shown,
    display_server_info sample_library sample_lister (constant_world not_found) 0
    = ([ConsolePrintPanel
          ("[bold blue]Server:[/bold blue] https://snipe.example.com" ++ nl
             ++ "[bold blue]Token:[/bold blue] " ++ shown ++ "...")
          "[bold green]SnipeIT Configuration[/bold green]" "blue"],
       0%nat, Ok tt)
    /\ prefix shown "eyJ0eXAiOiJKV1QiLCJhbGciOi" = true
    /\ str_len shown = 10%nat.
Proof.
  apply (display_server_info_token sample_library sample_lister
           (constant_world not_found) 0%nat);
    reflexivity.
Defined.

Lemma show_api_endpoints_static_witness :
  exists heading t,
    show_api_endpoints sample_library sample_lister (constant_world not_found) 0
    = ([ConsolePrint heading; ConsolePrintTable t], 0%nat, Ok tt)
    /\ table_rows t
       = map (fun e => [fst e; snd e; "https://snipe.example.com/api/v1/" ++ fst e])
           endpoints
    /\ List.length (table_rows t) = 15%nat.
Proof.
  apply (show_api_endpoints_static sample_library sample_lister
           (constant_world not_found) 0%nat).
  reflexivity.
Defined.

Lemma field_row_elements_witness :
  field_row sample_library (JObj size_field)
  = Ok [JStr "5"; JStr "Size"; JStr "ANY"; JStr "listbox"; JStr "✅";
        JStr "S, M, L..."]
  /\ field_row sample_library (JObj [("id", JInt 6); ("field_values_array", JNull)])
     = Ok [JStr "6"; JStr ""; JStr ""; JStr ""; JStr "❌"; JStr ""].
Proof.
  split.
  - apply (proj1 (field_row_elements sample_library size_field) ["S"; "M"; "L"; "XL"]).
    reflexivity.
  - apply (proj2 (field_row_elements sample_library
                    [("id", JInt 6); ("field_values_array", JNull)])).
    left. reflexivity.
Defined.

Lemma row_of_non_object_witness :
  row_of sample_library Companies JNull
  = Raise (AttributeError "'NoneType' object has no attribute 'get'").
Proof.
  apply (row_of_non_object sample_library Companies JNull).
  intros fields. discriminate.
Defined.

Lemma listing_stops_at_bad_record_witness :
  exists heading e,
    lister_of sample_library Models sample_lister
      (constant_world (ok_200 models_with_null_category)) 0
    = ([ConsolePrint heading; HttpGet "https://snipe.example.com/api/v1/models"],
       1%nat, Raise e).
Proof.
  apply (listing_stops_at_bad_record sample_library Models sample_lister
           (constant_world (ok_200 models_with_null_category)) 0%nat
           [("total", JInt 1);
            ("rows", JArr [JObj [("id", JInt 7); ("name", JStr "Latitude 5420");
                                 ("manufacturer",
                                  JObj [("id", JInt 3); ("name", JStr "Dell")]);
                                 ("category", JNull);
                                 ("assets_count", JInt 4)]])]
           [JObj [("id", JInt 7); ("name", JStr "Latitude 5420");
                  ("manufacturer", JObj [("id", JInt 3); ("name", JStr "Dell")]);
                  ("category", JNull);
                  ("assets_count", JInt 4)]]);
    reflexivity.
Defined.

Lemma listing_ignores_records_past_cap_witness :
  lister_of sample_library Companies sample_lister
    (constant_world (ok_200 (JObj [("rows", JArr sixteen_companies)]))) 0
  = lister_of sample_library Companies sample_lister
      (constant_world (ok_200 (JObj [("rows", JArr sixteen_with_null)]))) 0.
Proof.
  apply (listing_ignores_records_past_cap sample_library Companies 15 sample_lister
           (constant_world (ok_200 (JObj [("rows", JArr sixteen_companies)])))
           (constant_world (ok_200 (JObj [("rows", JArr sixteen_with_null)])))
           0%nat
           [("rows", JArr sixteen_companies)] [("rows", JArr sixteen_with_null)]
           sixteen_companies sixteen_with_null);
    reflexivity.
Defined.

Lemma categories_only_answers i endpoint :
  nth_error export_endpoints i = Some endpoint ->
  answers (net categories_only_world (i + 1)
             (api_url (client sample_lister) endpoint)) = true.
Proof.
  intros H. rewrite Nat.add_1_r.
  do 9 (destruct i as [| i]; [injection H as <-; reflexivity |]).
  destruct i; discriminate H.
Qed.

Lemma export_config_requests_witness :
  exists log r,
    export_config sample_library sample_lister "snipeit_config.json"
      categories_only_world 1
    = (log, 10%nat, r)
    /\ filter is_HttpGet log
       = [HttpGet "https://snipe.example.com/api/v1/categories";
          HttpGet "https://snipe.example.com/api/v1/models";
          HttpGet "https://snipe.example.com/api/v1/fields";
          HttpGet "https://snipe.example.com/api/v1/statuslabels";
          HttpGet "https://snipe.example.com/api/v1/companies";
          HttpGet "https://snipe.example.com/api/v1/locations";
          HttpGet "https://snipe.example.com/api/v1/departments";
          HttpGet "https://snipe.example.com/api/v1/suppliers";
          HttpGet "https://snipe.example.com/api/v1/manufacturers"].
Proof.
  apply (export_config_requests sample_library sample_lister "snipeit_config.json"
           categories_only_world 1%nat eq_refl categories_only_answers).
Defined.

(** The disk is full: the file is left open and emptied, the document is
    not written, the error is reported and the export returns. *)
Lemma export_config_write_outcome_witness :
  exists log,
    filter is_FileOpen log = []
    /\ filter is_JsonDump log = []
    /\ export_config sample_library sample_lister "snipeit_config.json"
         categories_only_world 1
       = ((log ++ [FileOpen "snipeit_config.json";
                   ConsolePrint ("[red]Error during export: "
                                   ++ "[Errno 28] No space left on device[/red]")])%list,
          10%nat, Ok tt).
Proof.
  destruct (export_config_write_outcome sample_library sample_lister
              "snipeit_config.json" categories_only_world 1%nat eq_refl
              categories_only_answers) as (log & Hopens & Hdumps & Hrun).
  exists log. split; [exact Hopens |]. split; [exact Hdumps |].
  apply Hrun. reflexivity.
Defined.

Lemma main_requests_witness :
  outcome_of (run sample_library
                (with_export (plain_args "https://snipe.example.com" "token"))
                categories_only_world)
  = Ok tt
  /\ filter is_HttpGet
       (events_of (run sample_library
                     (with_export (plain_args "https://snipe.example.com" "token"))
                     categories_only_world))
     = map HttpGet
         (requests_of (with_export (plain_args "https://snipe.example.com" "token"))).
Proof.
  apply (main_requests sample_library
           (with_export (plain_args "https://snipe.example.com" "token"))
           categories_only_world);
    [reflexivity | reflexivity | reflexivity
    | intros _; split; [reflexivity | intros document; reflexivity]
    | reflexivity
    | exact categories_only_listable].
Defined.

Lemma lister_skips_falsy_fetch_witness :
  exists heading notices,
    lister_of sample_library Locations sample_lister (constant_world not_found) 0
    = ((ConsolePrint heading
          :: [HttpGet "https://snipe.example.com/api/v1/locations";
              ConsolePrint
                ("[yellow]Endpoint locations not found (404) - "
                   ++ "may not be available in this SnipeIT version[/yellow]")]
          ++ notices)%list,
       1%nat, Ok tt)
    /\ notices <> []
    /\ forallb is_ConsolePrint notices = true.
Proof.
  apply (lister_skips_falsy_fetch sample_library Locations sample_lister
           (constant_world not_found) 0%nat _ 1%nat JNull);
    reflexivity.
Defined.

Lemma lister_raises_on_non_object_body_witness :
  exists heading,
    lister_of sample_library Suppliers sample_lister
      (constant_world (ok_200 (JArr [JInt 1]))) 0
    = ([ConsolePrint heading; HttpGet "https://snipe.example.com/api/v1/suppliers"],
       1%nat,
       Raise (AttributeError "'list' object has no attribute 'get'")).
Proof.
  apply (lister_raises_on_non_object_body sample_library Suppliers sample_lister
           (constant_world (ok_200 (JArr [JInt 1]))) 0%nat (JArr [JInt 1]));
    [reflexivity | reflexivity |].
  intros fields. discriminate.
Defined.

Lemma main_stops_at_bad_category_witness :
  exit_code
    (outcome_of (run sample_library
                   (with_export (plain_args "https://snipe.example.com" "token"))
                   (constant_world (ok_200 (JObj [("rows", JArr [JNull])])))))
  = 1%Z
  /\ filter is_HttpGet
       (events_of (run sample_library
                     (with_export (plain_args "https://snipe.example.com" "token"))
                     (constant_world (ok_200 (JObj [("rows", JArr [JNull])])))))
     = [HttpGet "https://snipe.example.com/api/v1/statuslabels";
        HttpGet "https://snipe.example.com/api/v1/categories"]
  /\ filter is_JsonDump
       (events_of (run sample_library
                     (with_export (plain_args "https://snipe.example.com" "token"))
                     (constant_world (ok_200 (JObj [("rows", JArr [JNull])])))))
     = [].
Proof.
  apply (main_stops_at_bad_category sample_library
           (with_export (plain_args "https://snipe.example.com" "token"))
           (constant_world (ok_200 (JObj [("rows", JArr [JNull])])))
           [("rows", JArr [JNull])] [JNull]);
    reflexivity.
Defined.
